(** * Horovod basics: the Python control plane over the native engine

    A shallow embedding of [horovod/common/basics.py] (class
    [HorovodBasics]): the initialisation call, the process-set registry
    calls and the rank/size queries, each a thin wrapper that marshals its
    arguments to C values, performs one or more foreign calls into the
    native engine and turns the engine's integer sentinels into Python
    exceptions.

    The native engine is not part of the Python sources.  It is modelled as
    a capability object ([Engine]): a state type and a function answering
    each foreign call.  The Python side effects that the wrappers perform
    ([os.environ] updates, [atexit] registrations, foreign calls) are
    recorded, in order, in a trace. *)

From Stdlib Require Import ZArith String Ascii List Bool Lia.
From stdpp Require Import base tactics option list gmap strings pretty.

Local Open Scope string_scope.
Local Open Scope list_scope.
Local Open Scope Z_scope.

(** ** C integers as ctypes sees them *)

(** [ctypes.c_int(v)]: a 32-bit signed C int.  ctypes does no overflow
    checking; a Python int out of range is reduced modulo 2^32. *)
Definition c_int (v : Z) : Z := (v + 2 ^ 31) mod 2 ^ 32 - 2 ^ 31.

Definition c_int_range (v : Z) : Prop := - 2 ^ 31 <= v < 2 ^ 31.

(** ** Python values and exceptions *)

(** External communicator handles ([mpi4py.MPI.Comm] objects) are opaque;
    only their identity matters here. *)
Definition handle := Z.

(** The values the [comm] argument of [init] is made of. *)
#[warnings="-register-all"]
Inductive pyobj :=
| PyInt (v : Z)
| PyStr (s : string)
| PyComm (h : handle)
| PyList (l : list pyobj).

(** [process_sets] argument of [init]: [None], a string, or a list of rank
    lists. *)
Inductive process_sets_arg :=
| PSNone
| PSStr (s : string)
| PSList (l : list (list Z)).

Inductive exn :=
| ValueError (msg : string)
| RuntimeError (msg : string)
| TypeError (msg : string)
| ModuleNotFoundError (msg : string).

Inductive outcome (A : Type) :=
| Returns (a : A)
| Raises (e : exn).
Arguments Returns {A} a.
Arguments Raises {A} e.

(** [str.lower()] on the ASCII range (enough to decide equality with
    ["dynamic"], which has no non-ASCII preimage under lowering). *)
Definition ascii_lower (c : ascii) : ascii :=
  let n := nat_of_ascii c in
  if (65 <=? n)%nat && (n <=? 90)%nat then ascii_of_nat (n + 32) else c.

Fixpoint lower (s : string) : string :=
  match s with
  | EmptyString => EmptyString
  | String c s' => String (ascii_lower c) (lower s')
  end.

(** ** The native engine *)

(** The exported C functions of the engine that the wrappers below call,
    with the C values passed.  Output buffers are not arguments: what the
    engine writes is part of its [response]. *)
Inductive call :=
| horovod_init (ranks : list Z) (nranks : Z)
    (process_set_ranks process_set_sizes : list Z) (num_process_sets : Z)
| horovod_init_comm (comm : handle)
| horovod_init_multi_comm (comms : list handle) (ncomms : Z)
| horovod_shutdown
| horovod_size
| horovod_local_size
| horovod_cross_size
| horovod_rank
| horovod_local_rank
| horovod_cross_rank
| horovod_mpi_built
| horovod_add_process_set (ranks : list Z) (nrank : Z)
| horovod_remove_process_set (process_set_id : Z)
| horovod_process_set_rank (process_set_id : Z)
| horovod_process_set_size (process_set_id : Z)
| horovod_get_number_of_process_sets
| horovod_get_process_set_ids
| horovod_get_process_set_size (process_set_id : Z)
| horovod_get_process_set_ranks (process_set_id : Z).

(** What comes back from a foreign call: the C return value (0 for a
    [void] function) and the ints written through an output pointer. *)
Record response := Response { rval : Z; written : list Z }.

(** The engine as a capability object.  It reads the process environment
    (the dynamic-mode switch is consulted during initialisation). *)
Record Engine := {
  estate : Type;
  respond : call -> gmap string string -> estate -> response * estate
}.

(** ** The Python process *)

(** [atexit] callbacks: the only one registered here is the bound method
    [self.shutdown]. *)
Inductive callback := Shutdown.

Inductive event :=
| Foreign (c : call) (r : response)
| SetEnv (key value : string)
| AtexitRegister (cb : callback).

Record World (E : Engine) := {
  engine : estate E;
  environ : gmap string string;
  atexit : list callback;
  mpi4py_installed : bool;
  trace : list event
}.
Arguments engine {E} w.
Arguments environ {E} w.
Arguments atexit {E} w.
Arguments mpi4py_installed {E} w.
Arguments trace {E} w.

(** A computation of the Python process: it may raise, and keeps every
    effect performed before the raise. *)
Definition M (E : Engine) (A : Type) : Type := World E -> outcome A * World E.

Definition ret {E A} (a : A) : M E A := fun w => (Returns a, w).

Definition raise {E A} (e : exn) : M E A := fun w => (Raises e, w).

Definition bind {E A B} (m : M E A) (k : A -> M E B) : M E B :=
  fun w =>
    match m w with
    | (Returns a, w') => k a w'
    | (Raises e, w') => (Raises e, w')
    end.

Declare Scope py_scope.
Delimit Scope py_scope with py.
Notation "x <- m ;; k" := (bind m (fun x => k))
  (at level 100, m at next level, right associativity) : py_scope.
Notation "m ;;; k" := (bind m (fun _ => k))
  (at level 100, right associativity) : py_scope.
Local Open Scope py_scope.

(** One foreign call: the engine answers and moves on, and the call is
    appended to the trace together with its answer. *)
Definition foreign {E} (c : call) : M E response :=
  fun w =>
    let '(r, s) := respond E c (environ w) (engine w) in
    (Returns r,
     {| engine := s; environ := environ w; atexit := atexit w;
        mpi4py_installed := mpi4py_installed w;
        trace := trace w ++ [Foreign c r] |}).

(** [int(lib.f(...))] for an [int]-returning C function. *)
Definition foreign_int {E} (c : call) : M E Z :=
  r <- foreign c ;; ret (rval r).

(** [os.environ[key] = value] *)
Definition setenv {E} (key value : string) : M E unit :=
  fun w =>
    (Returns tt,
     {| engine := engine w; environ := <[key := value]> (environ w);
        atexit := atexit w; mpi4py_installed := mpi4py_installed w;
        trace := trace w ++ [SetEnv key value] |}).

(** [atexit.register(cb)] *)
Definition atexit_register {E} (cb : callback) : M E unit :=
  fun w =>
    (Returns tt,
     {| engine := engine w; environ := environ w;
        atexit := atexit w ++ [cb];
        mpi4py_installed := mpi4py_installed w;
        trace := trace w ++ [AtexitRegister cb] |}).

(** [from mpi4py import MPI] *)
Definition import_mpi4py {E} : M E unit :=
  fun w =>
    if mpi4py_installed w then (Returns tt, w)
    else (Raises (ModuleNotFoundError "No module named 'mpi4py'"), w).

(** [MPI._addressof(arg)]: the handle under an MPI object; any other
    argument is a [TypeError]. *)
Definition MPI_addressof {E} (arg : pyobj) : M E handle :=
  match arg with
  | PyComm h => ret h
  | _ => raise (TypeError "expecting an MPI instance")
  end.

(** [(ctypes.c_int * n)()]: a zero-filled array; a negative length is
    refused by ctypes. *)
Definition c_int_array {E} (n : Z) : M E (list Z) :=
  if n <? 0
  then raise (ValueError ("Array length must be >= 0, not " +:+ pretty n))
  else ret (replicate (Z.to_nat n) 0).

(** The engine writing [data] through a pointer to [buf]: the front of the
    buffer is overwritten, the rest keeps its content.  A write past the
    end of the buffer is undefined in C and is cut off here. *)
Definition store (data buf : list Z) : list Z :=
  take (length buf) (data ++ drop (length data) buf).

(** A ctypes [c_int] array filled from the Python values [vals]: every
    element must be a Python int, and is stored as a C int. *)
Definition is_int (o : pyobj) : bool :=
  match o with PyInt _ => true | _ => false end.

Definition is_comm (o : pyobj) : bool :=
  match o with PyComm _ => true | _ => false end.

Definition int_value (o : pyobj) : Z :=
  match o with PyInt v => v | _ => 0 end.

Definition c_int_array_from {E} (vals : list pyobj) : M E (list Z) :=
  if forallb is_int vals then ret (map (fun o => c_int (int_value o)) vals)
  else raise (TypeError "'str' object cannot be interpreted as an integer").

Fixpoint mapM {E A B} (f : A -> M E B) (l : list A) : M E (list B) :=
  match l with
  | [] => ret []
  | a :: l' => b <- f a ;; bs <- mapM f l' ;; ret (b :: bs)
  end.

(** ** class HorovodBasics *)

Module HorovodBasics.
Section Wrapper.
Context {E : Engine}.

Definition not_initialized_msg : string :=
  "Horovod has not been initialized; use hvd.init().".

Definition mpi_not_built_msg : string :=
  "Horovod has not been built with MPI support. Ensure MPI is installed and " +:+
  "reinstall Horovod with HOROVOD_WITH_MPI=1 to debug the build error.".

Definition invalid_comm_msg : string :=
  "Invalid type of argument comm. Expected list of rank integers, " +:+
  "mpi4py.MPI.Comm object or list of mpi4py.MPI.Comm objects.".

Definition gloo_msg : string :=
  "Multiple process sets are only supported with MPI controllers, not Gloo.".

Definition table_modified_msg : string :=
  "Process set table was modified outside of get_process_sets()".

Definition shutdown : M E unit :=
  foreign horovod_shutdown ;;; ret tt.

Definition mpi_built : M E bool :=
  r <- foreign_int horovod_mpi_built ;; ret (negb (r =? 0)).

(** The elements produced by [[len(ps) for ps in process_sets]] and by
    [[rank for process_set in process_sets for rank in process_set]].
    Iterating over a string yields its one-character substrings. *)
Definition process_set_sizes (process_sets : process_sets_arg) : list pyobj :=
  match process_sets with
  | PSNone => []
  | PSStr s => map (fun _ => PyInt 1) (list_ascii_of_string s)
  | PSList l => map (fun ps => PyInt (Z.of_nat (length ps))) l
  end.

Definition process_set_ranks (process_sets : process_sets_arg) : list pyobj :=
  match process_sets with
  | PSNone => []
  | PSStr s => map (fun c => PyStr (String c EmptyString)) (list_ascii_of_string s)
  | PSList l => map PyInt (concat l)
  end.

Definition init (comm : option pyobj) (process_sets : process_sets_arg)
  : M E unit :=
  let comm :=
    match comm with
    | None => []
    | Some (PyList l) => l
    | Some o => [o]
    end in
  process_sets <-
    match process_sets with
    | PSNone => ret (PSList [])
    | PSStr s =>
        if String.eqb (lower s) "dynamic"
        then (setenv "HOROVOD_DYNAMIC_PROCESS_SETS" "1" ;;; ret (PSList []))
        else ret (PSStr s)
    | PSList l => ret (PSList l)
    end ;;
  let sizes := process_set_sizes process_sets in
  let ranks := process_set_ranks process_sets in
  ranks_arg <- c_int_array_from ranks ;;
  sizes_arg <- c_int_array_from sizes ;;
  let count_arg := c_int (Z.of_nat (length sizes)) in
  atexit_register Shutdown ;;;
  if (length comm =? 0)%nat || forallb is_int comm then
    let comm_size := Z.of_nat (length comm) in
    comm_arg <- c_int_array_from comm ;;
    foreign (horovod_init comm_arg (c_int comm_size)
               ranks_arg sizes_arg count_arg) ;;;
    ret tt
  else
    built <- mpi_built ;;
    if negb built then raise (ValueError mpi_not_built_msg)
    else
      import_mpi4py ;;;
      if negb (forallb is_comm comm) then raise (ValueError invalid_comm_msg)
      else if (length comm =? 1)%nat then
        comm_obj <- MPI_addressof (PyList comm) ;;
        foreign (horovod_init_comm comm_obj) ;;;
        ret tt
      else
        comm_objs <- mapM MPI_addressof comm ;;
        let comm_size := Z.of_nat (length comm) in
        foreign (horovod_init_multi_comm comm_objs (c_int comm_size)) ;;;
        ret tt.

Definition size : M E Z :=
  size <- foreign_int horovod_size ;;
  if size =? -1 then raise (ValueError not_initialized_msg) else ret size.

Definition local_size : M E Z :=
  local_size <- foreign_int horovod_local_size ;;
  if local_size =? -1 then raise (ValueError not_initialized_msg)
  else ret local_size.

Definition cross_size : M E Z :=
  cross_size <- foreign_int horovod_cross_size ;;
  if cross_size =? -1 then raise (ValueError not_initialized_msg)
  else ret cross_size.

Definition rank : M E Z :=
  rank <- foreign_int horovod_rank ;;
  if rank =? -1 then raise (ValueError not_initialized_msg) else ret rank.

Definition local_rank : M E Z :=
  local_rank <- foreign_int horovod_local_rank ;;
  if local_rank =? -1 then raise (ValueError not_initialized_msg)
  else ret local_rank.

Definition cross_rank : M E Z :=
  cross_rank <- foreign_int horovod_cross_rank ;;
  if cross_rank =? -1 then raise (ValueError not_initialized_msg)
  else ret cross_rank.

Definition add_process_set (ranks : list Z) : M E Z :=
  let nrank := Z.of_nat (length ranks) in
  result <- foreign_int
              (horovod_add_process_set (map c_int ranks) (c_int nrank)) ;;
  if result =? -1 then raise (ValueError not_initialized_msg)
  else if result =? -2 then
    raise (ValueError
      "Set HOROVOD_DYNAMIC_PROCESS_SETS=1 to allow adding process sets after Horovod initialization.")
  else if result =? -10 then raise (ValueError gloo_msg)
  else ret result.

Definition remove_process_set (process_set_id : Z) : M E Z :=
  if process_set_id =? 0 then
    raise (ValueError "Attempted to remove the global process set with id 0.")
  else
    result <- foreign_int
                (horovod_remove_process_set (c_int process_set_id)) ;;
    if result =? -1 then raise (ValueError not_initialized_msg)
    else if result =? -2 then
      raise (ValueError
        "Set HOROVOD_DYNAMIC_PROCESS_SETS=1 to allow removing process sets after Horovod initialization.")
    else if result =? -3 then
      raise (ValueError
        ("Tried to remove unknown process set id " +:+ pretty process_set_id))
    else if result =? -10 then raise (ValueError gloo_msg)
    else ret result.

Definition process_set_rank (process_set_id : Z) : M E Z :=
  result <- foreign_int (horovod_process_set_rank (c_int process_set_id)) ;;
  if result =? -1 then raise (ValueError not_initialized_msg)
  else if result =? -2 then
    raise (ValueError
      ("Process is not part of process set " +:+ pretty process_set_id))
  else if result =? -3 then
    raise (ValueError ("Unknown process set id " +:+ pretty process_set_id))
  else if result =? -10 then raise (ValueError gloo_msg)
  else ret result.

Definition process_set_size (process_set_id : Z) : M E Z :=
  result <- foreign_int (horovod_process_set_size (c_int process_set_id)) ;;
  if result =? -1 then raise (ValueError not_initialized_msg)
  else if result =? -2 then
    raise (ValueError
      ("Process is not part of process set " +:+ pretty process_set_id))
  else if result =? -3 then
    raise (ValueError ("Unknown process set id " +:+ pretty process_set_id))
  else if result =? -10 then raise (ValueError gloo_msg)
  else ret result.

(** The body of the [for ps_id in ids_array] loop of [get_process_sets],
    with the dictionary built so far. *)
Fixpoint get_process_sets_loop (ids_array : list Z)
    (ret_dict : gmap Z (list Z)) : M E (gmap Z (list Z)) :=
  match ids_array with
  | [] => ret ret_dict
  | ps_id :: ids_rest =>
      ps_size <- foreign_int (horovod_get_process_set_size (c_int ps_id)) ;;
      if ps_size <? 0 then raise (RuntimeError table_modified_msg)
      else
        ranks_array <- c_int_array ps_size ;;
        r <- foreign (horovod_get_process_set_ranks (c_int ps_id)) ;;
        let ranks_array := store (written r) ranks_array in
        let res := rval r in
        if res <? 0 then raise (RuntimeError table_modified_msg)
        else get_process_sets_loop ids_rest (<[ps_id := ranks_array]> ret_dict)
  end.

Definition get_process_sets : M E (gmap Z (list Z)) :=
  num <- foreign_int horovod_get_number_of_process_sets ;;
  ids_array <- c_int_array num ;;
  r <- foreign horovod_get_process_set_ids ;;
  let ids_array := store (written r) ids_array in
  get_process_sets_loop ids_array ∅.

(** What the interpreter does with a registered callback at exit. *)
Definition run_callback (cb : callback) : M E unit :=
  match cb with Shutdown => shutdown end.

End Wrapper.
End HorovodBasics.

(** ** The error taxonomy of the specification

    Python has one exception class per failure here ([ValueError], or
    [RuntimeError] for the registry read); the conditions of the
    specification are told apart by the message. *)

Definition NotInitialized : exn :=
  ValueError HorovodBasics.not_initialized_msg.

Definition DynamicModeDisabled : exn :=
  ValueError
    "Set HOROVOD_DYNAMIC_PROCESS_SETS=1 to allow adding process sets after Horovod initialization.".

(** Process-set calls under a controller other than MPI. *)
Definition UnsupportedController : exn :=
  ValueError HorovodBasics.gloo_msg.

(** Communicator handles given to an engine built without MPI. *)
Definition UnsupportedControllerNoMPI : exn :=
  ValueError HorovodBasics.mpi_not_built_msg.

Definition ConfigurationError : exn :=
  ValueError HorovodBasics.invalid_comm_msg.

Definition NotAMember (process_set_id : Z) : exn :=
  ValueError ("Process is not part of process set " +:+ pretty process_set_id).

Definition UnknownProcessSet (process_set_id : Z) : exn :=
  ValueError ("Unknown process set id " +:+ pretty process_set_id).

Definition GlobalSetImmutable : exn :=
  ValueError "Attempted to remove the global process set with id 0.".

Definition ConsistencyError : exn :=
  RuntimeError HorovodBasics.table_modified_msg.

(** ** Observations on a run *)

(** The engine's answer to call [c] in world [w]. *)
Definition answer {E} (w : World E) (c : call) : response :=
  fst (respond E c (environ w) (engine w)).

Definition reply {E} (w : World E) (c : call) : Z := rval (answer w c).

(** The world after that call. *)
Definition after {E} (w : World E) (c : call) : World E := snd (foreign c w).

(** The events a run appended to the trace. *)
Definition new_events {E} (w w' : World E) : list event :=
  drop (length (trace w)) (trace w').

Definition is_foreign (ev : event) : bool :=
  match ev with Foreign _ _ => true | _ => false end.

(** A negative size or a negative ranks-fetch result among the events. *)
Definition negative_report (ev : event) : bool :=
  match ev with
  | Foreign (horovod_get_process_set_size _) r => rval r <? 0
  | Foreign (horovod_get_process_set_ranks _) r => rval r <? 0
  | _ => false
  end.

(** [comm] is [None], a list of integers or a single integer: the forms
    for which [init] hands the process-set arrays to the engine. *)
Definition rank_comm (comm : option pyobj) : bool :=
  match comm with
  | None => true
  | Some (PyList l) => forallb is_int l
  | Some o => is_int o
  end.

Definition comm_items (comm : option pyobj) : list pyobj :=
  match comm with
  | None => []
  | Some (PyList l) => l
  | Some o => [o]
  end.

(** The documented forms of [process_sets]: [None], a list of rank lists,
    or the string "dynamic" (in any letter case). *)
Definition documented_process_sets (process_sets : process_sets_arg) : bool :=
  match process_sets with
  | PSStr s => String.eqb (lower s) "dynamic"
  | _ => true
  end.

(** ** Membership duplicates, as the specification words them

    Two entries are duplicates when they have the same members as
    unordered sets; the specification drops every entry that duplicates
    an earlier one. *)

Definition same_membership (a b : list Z) : bool :=
  forallb (fun x => existsb (Z.eqb x) b) a &&
  forallb (fun x => existsb (Z.eqb x) a) b.

Fixpoint spec_drop_duplicates_from (seen : list (list Z))
    (entries : list (list Z)) : list (list Z) :=
  match entries with
  | [] => []
  | ps :: rest =>
      if existsb (same_membership ps) seen
      then spec_drop_duplicates_from seen rest
      else ps :: spec_drop_duplicates_from (ps :: seen) rest
  end.

Definition spec_drop_duplicates (entries : list (list Z)) : list (list Z) :=
  spec_drop_duplicates_from [] entries.

(** ** Test engines *)

(** An engine that answers from a script, one response per call, and
    answers 0 once the script is used up. *)
Definition scripted : Engine := {|
  estate := list response;
  respond := fun _ _ s =>
    match s with
    | r :: s' => (r, s')
    | [] => (Response 0 [], [])
    end
|}.

(** A fresh Python process over engine state [s]. *)
Definition boot {E} (s : estate E) : World E :=
  {| engine := s; environ := ∅; atexit := []; mpi4py_installed := true;
     trace := [] |}.

(** ** The phases of [init], named for reasoning

    [init_connect] is the [if]/[else] block that ends [init] (the engine
    handshake), over the arguments marshalled before it; [init] itself is
    shown to run the marshalling, the exit-hook registration and then this
    block ([init_documented] below). *)

Definition init_connect {E} (comm : list pyobj)
    (ranks_arg sizes_arg : list Z) (count_arg : Z) : M E unit :=
  if (length comm =? 0)%nat || forallb is_int comm then
    let comm_size := Z.of_nat (length comm) in
    comm_arg <- c_int_array_from comm ;;
    foreign (horovod_init comm_arg (c_int comm_size)
               ranks_arg sizes_arg count_arg) ;;;
    ret tt
  else
    built <- HorovodBasics.mpi_built ;;
    if negb built then raise (ValueError HorovodBasics.mpi_not_built_msg)
    else
      import_mpi4py ;;;
      if negb (forallb is_comm comm)
      then raise (ValueError HorovodBasics.invalid_comm_msg)
      else if (length comm =? 1)%nat then
        comm_obj <- MPI_addressof (PyList comm) ;;
        foreign (horovod_init_comm comm_obj) ;;;
        ret tt
      else
        comm_objs <- mapM MPI_addressof comm ;;
        let comm_size := Z.of_nat (length comm) in
        foreign (horovod_init_multi_comm comm_objs (c_int comm_size)) ;;;
        ret tt.

(** The rank lists a documented [process_sets] argument declares. *)
Definition declared_sets (process_sets : process_sets_arg) : list (list Z) :=
  match process_sets with
  | PSList l => l
  | _ => []
  end.

(** The process once [init] has read a documented [process_sets]: the
    "dynamic" marker has set the switch, the other forms change nothing. *)
Definition switched {E} (process_sets : process_sets_arg) (w : World E)
  : World E :=
  match process_sets with
  | PSStr _ => snd (setenv "HOROVOD_DYNAMIC_PROCESS_SETS" "1" w)
  | _ => w
  end.

(** From [w] to [w'] only foreign calls happened: the exit hooks and the
    environment are as they were, and the trace grew by foreign calls. *)
Definition only_calls {E} (w w' : World E) : Prop :=
  atexit w' = atexit w /\ environ w' = environ w /\
  exists evs, trace w' = trace w ++ evs /\ forallb is_foreign evs = true.

(** The process once the exit hook is registered. *)
Definition armed {E} (w : World E) : World E :=
  snd (atexit_register Shutdown w).

(** ** The three-step read of [get_process_sets], observed *)

(** Step one: the count the engine reports. *)
Definition fetched_count {E} (w : World E) : Z :=
  reply w horovod_get_number_of_process_sets.

(** Step two: the id list, as it stands in the array of that length once
    the engine has written to it. *)
Definition fetched_ids {E} (w : World E) : list Z :=
  store
    (written (answer (after w horovod_get_number_of_process_sets)
                horovod_get_process_set_ids))
    (replicate (Z.to_nat (fetched_count w)) 0).

(** Step three, for one id: [m] is the membership list read for [id],
    that is the array of the reported size after a ranks fetch for [id],
    both calls being among the events [evs]. *)
Definition membership_read (evs : list event) (id : Z) (m : list Z) : Prop :=
  exists r_size r_ranks,
    Foreign (horovod_get_process_set_size (c_int id)) r_size ∈ evs /\
    Foreign (horovod_get_process_set_ranks (c_int id)) r_ranks ∈ evs /\
    m = store (written r_ranks) (replicate (Z.to_nat (rval r_size)) 0).

(** ** The rest of the engine's interface

    The exported C functions behind the remaining methods of
    [HorovodBasics]: state and feature probes, the timeline switches and
    the translation of a communicator into its process-set id.  Each
    returns one C int (a C [bool] being 0 or not 0). *)
Inductive probe :=
| horovod_is_initialized
| horovod_start_timeline (file_path : string) (mark_cycles : bool)
| horovod_stop_timeline
| horovod_is_homogeneous
| horovod_mpi_threads_supported
| horovod_mpi_enabled
| horovod_gloo_enabled
| horovod_gloo_built
| horovod_nccl_built
| horovod_ddl_built
| horovod_ccl_built
| horovod_cuda_built
| horovod_rocm_built
| horovod_comm_process_set (comm : handle).

(** An engine that also answers the probes.  [core] is the interface of
    the handshake and of the registry. *)
Record FullEngine := {
  core : Engine;
  respond_probe :
    probe -> gmap string string -> estate core -> Z * estate core
}.

(** One probe call.  The engine answers and moves on; the trace keeps to
    the events of the handshake and registry interface. *)
Definition foreign_probe {X : FullEngine} (c : probe) : M (core X) Z :=
  fun w =>
    let '(r, s) := respond_probe X c (environ w) (engine w) in
    (Returns r,
     {| engine := s; environ := environ w; atexit := atexit w;
        mpi4py_installed := mpi4py_installed w; trace := trace w |}).

(** The engine's answer to a probe in world [w], and the world after it. *)
Definition probe_reply {X : FullEngine} (w : World (core X)) (c : probe) : Z :=
  fst (respond_probe X c (environ w) (engine w)).

Definition after_probe {X : FullEngine} (w : World (core X)) (c : probe)
  : World (core X) :=
  snd (foreign_probe c w).

(** Python's [bool(v)] on an int. *)
Definition py_bool (v : Z) : bool := negb (v =? 0).

(** ** class HorovodBasics, remaining methods *)

Module HorovodBasicsRest.
Section Wrapper.
Context {X : FullEngine}.


Definition start_timeline (file_path : string) (mark_cycles : bool)
  : M (core X) unit :=
  result <- foreign_probe (horovod_start_timeline file_path mark_cycles) ;;
  if result =? -1 then raise (ValueError HorovodBasics.not_initialized_msg)
  else if result =? -2 then
    raise (ValueError
      "Set HOROVOD_TIMELINE=DYNAMIC to enable dynamic timeline usage.")
  else ret tt.

Definition stop_timeline : M (core X) unit :=
  result <- foreign_probe horovod_stop_timeline ;;
  if result =? -1 then raise (ValueError HorovodBasics.not_initialized_msg)
  else ret tt.


Definition mpi_threads_supported : M (core X) bool :=
  mpi_enabled <- foreign_probe horovod_mpi_enabled ;;
  if negb (py_bool mpi_enabled) then
    raise (ValueError
      "Horovod MPI is not enabled; Please make sure it's installed and enabled.")
  else
    mpi_threads_supported <- foreign_probe horovod_mpi_threads_supported ;;
    if mpi_threads_supported =? -1
    then raise (ValueError HorovodBasics.not_initialized_msg)
    else ret (py_bool mpi_threads_supported).

Definition mpi_enabled : M (core X) bool :=
  mpi_enabled <- foreign_probe horovod_mpi_enabled ;;
  ret (py_bool mpi_enabled).








Definition comm_process_set (comm : pyobj) : M (core X) Z :=
  built <- HorovodBasics.mpi_built ;;
  if negb built then raise (ValueError HorovodBasics.mpi_not_built_msg)
  else
    import_mpi4py ;;;
    comm_obj <- MPI_addressof comm ;;
    result <- foreign_probe (horovod_comm_process_set comm_obj) ;;
    if result =? -1 then
      raise (ValueError
        "Horovod has not been initialized or MPI has not been enabled; use hvd.init().")
    else if result =? -2 then
      raise (ValueError
        "MPI communicator does not correspond to any registered process set.")
    else ret result.

End Wrapper.
End HorovodBasicsRest.

(** A full engine that answers calls and probes alike from one script. *)
Definition scripted_full : FullEngine := {|
  core := scripted;
  respond_probe := fun _ _ s =>
    match s with
    | r :: s' => (rval r, s')
    | [] => (0, [])
    end
|}.

(** The exceptions of the remaining methods. *)
Definition DynamicTimelineDisabled : exn :=
  ValueError "Set HOROVOD_TIMELINE=DYNAMIC to enable dynamic timeline usage.".

Definition MPINotEnabled : exn :=
  ValueError
    "Horovod MPI is not enabled; Please make sure it's installed and enabled.".

Definition NotInitializedOrNoMPI : exn :=
  ValueError
    "Horovod has not been initialized or MPI has not been enabled; use hvd.init().".

Definition NoMatchingProcessSet : exn :=
  ValueError
    "MPI communicator does not correspond to any registered process set.".

Definition DynamicModeDisabledRemove : exn :=
  ValueError
    "Set HOROVOD_DYNAMIC_PROCESS_SETS=1 to allow removing process sets after Horovod initialization.".

Definition UnknownProcessSetRemove (process_set_id : Z) : exn :=
  ValueError
    ("Tried to remove unknown process set id " +:+ pretty process_set_id).

(** The foreign calls among a list of events, in order. *)
Definition calls_of (evs : list event) : list call :=
  omap (fun ev => match ev with Foreign c _ => Some c | _ => None end) evs.

(** * Properties *)

(** ** Running the monad *)

Section Run.
Context {E : Engine}.
Implicit Types (w : World E) (c : call).

Lemma foreign_run w c : foreign c w = (Returns (answer w c), after w c).
Proof.
  unfold after, answer, foreign.
  destruct (respond E c (environ w) (engine w)) as [r s]; reflexivity.
Qed.

Lemma foreign_int_run w c :
  foreign_int c w = (Returns (reply w c), after w c).
Proof. unfold foreign_int, bind. rewrite foreign_run. reflexivity. Qed.

Lemma trace_after w c : trace (after w c) = trace w ++ [Foreign c (answer w c)].
Proof.
  unfold after, answer, foreign.
  destruct (respond E c (environ w) (engine w)) as [r s]; reflexivity.
Qed.

Lemma environ_after w c : environ (after w c) = environ w.
Proof.
  unfold after, foreign.
  destruct (respond E c (environ w) (engine w)) as [r s]; reflexivity.
Qed.

Lemma atexit_after w c : atexit (after w c) = atexit w.
Proof.
  unfold after, foreign.
  destruct (respond E c (environ w) (engine w)) as [r s]; reflexivity.
Qed.

Lemma mpi4py_after w c : mpi4py_installed (after w c) = mpi4py_installed w.
Proof.
  unfold after, foreign.
  destruct (respond E c (environ w) (engine w)) as [r s]; reflexivity.
Qed.

Lemma bind_run {A B} (m : M E A) (k : A -> M E B) w a w' :
  m w = (Returns a, w') -> bind m k w = k a w'.
Proof. intros H. unfold bind. rewrite H. reflexivity. Qed.

Lemma new_events_app w w' evs :
  trace w' = trace w ++ evs -> new_events w w' = evs.
Proof. intros H. unfold new_events. rewrite H. apply drop_app_length. Qed.

End Run.

(** Messages of distinct conditions are distinct strings. *)
Ltac distinct_messages :=
  repeat match goal with
         | H : Raises _ = Raises _ |- _ => injection H as H
         | H : Raises _ = Returns _ |- _ => discriminate H
         | H : Returns _ = Raises _ |- _ => discriminate H
         | H : Returns _ = Returns _ |- _ => injection H as H
         end;
  try match goal with
      | H : ValueError _ = ValueError _ |- _ =>
          unfold HorovodBasics.not_initialized_msg, HorovodBasics.gloo_msg in H;
          simpl in H; discriminate H
      end.

(** ** Unscoped queries *)

Section Queries.
Context {E : Engine}.
Implicit Types (w : World E).

(** The shape shared by the six unscoped queries. *)
Lemma query_sentinel (c : call) w :
  let q : M E Z :=
    (v <- foreign_int c ;;
     if v =? -1 then raise (ValueError HorovodBasics.not_initialized_msg)
     else ret v) in
  (fst (q w) = Raises NotInitialized <-> reply w c = -1) /\
  (fst (q w) = Returns (reply w c) <-> reply w c <> -1) /\
  trace (snd (q w)) = trace w ++ [Foreign c (answer w c)].
Proof.
  intros q. unfold q.
  rewrite (bind_run _ _ _ _ _ (foreign_int_run w c)).
  destruct (Z.eqb_spec (reply w c) (-1)) as [Heq | Hne]; cbn.
  - repeat split; try (intros; try reflexivity; try assumption).
    + discriminate.
    + contradiction.
    + apply trace_after.
  - repeat split; try (intros; try reflexivity; try assumption).
    + discriminate.
    + contradiction.
    + apply trace_after.
Qed.

End Queries.

(** C5: each of the six unscoped queries [size], [local_size],
    [cross_size], [rank], [local_rank], [cross_rank] makes exactly one
    engine call, raises NotInitialized exactly when the engine answers -1,
    and otherwise returns the engine's integer unchanged. *)
Theorem unscoped_queries_translate_sentinel (E : Engine) (w : World E) :
  Forall (fun qc : M E Z * call =>
            (fst (fst qc w) = Raises NotInitialized <->
               reply w (snd qc) = -1) /\
            (fst (fst qc w) = Returns (reply w (snd qc)) <->
               reply w (snd qc) <> -1) /\
            trace (snd (fst qc w)) =
              trace w ++ [Foreign (snd qc) (answer w (snd qc))])
    [ (HorovodBasics.size, horovod_size);
      (HorovodBasics.local_size, horovod_local_size);
      (HorovodBasics.cross_size, horovod_cross_size);
      (HorovodBasics.rank, horovod_rank);
      (HorovodBasics.local_rank, horovod_local_rank);
      (HorovodBasics.cross_rank, horovod_cross_rank) ].
Proof.
  repeat apply List.Forall_cons; try apply List.Forall_nil; cbn [fst snd];
    match goal with
    | |- context [reply w ?c] => exact (query_sentinel c w)
    end.
Qed.

(** ** Process-set queries and registry calls *)

Ltac unfold_taxonomy :=
  unfold NotInitialized, DynamicModeDisabled, UnsupportedController,
    UnsupportedControllerNoMPI, ConfigurationError, NotAMember,
    UnknownProcessSet, GlobalSetImmutable, ConsistencyError in *.

Ltac sentinel_cases :=
  repeat split; intros; subst;
  try reflexivity; try lia; try apply trace_after;
  unfold_taxonomy; distinct_messages; try lia; try congruence.

Section Scoped.
Context {E : Engine}.
Implicit Types (w : World E).

(** The shape shared by [process_set_rank] and [process_set_size]. *)
Lemma scoped_sentinel (c : call) (id : Z) w :
  let q : M E Z :=
    (result <- foreign_int c ;;
     if result =? -1 then raise (ValueError HorovodBasics.not_initialized_msg)
     else if result =? -2 then
       raise (ValueError ("Process is not part of process set " +:+ pretty id))
     else if result =? -3 then
       raise (ValueError ("Unknown process set id " +:+ pretty id))
     else if result =? -10 then raise (ValueError HorovodBasics.gloo_msg)
     else ret result) in
  let r := reply w c in
  (fst (q w) = Raises NotInitialized <-> r = -1) /\
  (fst (q w) = Raises (NotAMember id) <-> r = -2) /\
  (fst (q w) = Raises (UnknownProcessSet id) <-> r = -3) /\
  (fst (q w) = Raises UnsupportedController <-> r = -10) /\
  (fst (q w) = Returns r <-> r <> -1 /\ r <> -2 /\ r <> -3 /\ r <> -10) /\
  trace (snd (q w)) = trace w ++ [Foreign c (answer w c)].
Proof.
  intros q r. unfold q.
  rewrite (bind_run _ _ _ _ _ (foreign_int_run w c)). fold r.
  destruct (Z.eqb_spec r (-1)); [cbn; sentinel_cases |].
  destruct (Z.eqb_spec r (-2)); [cbn; sentinel_cases |].
  destruct (Z.eqb_spec r (-3)); [cbn; sentinel_cases |].
  destruct (Z.eqb_spec r (-10)); cbn; sentinel_cases.
Qed.

(** The sentinel translation of [add_process_set]. *)
Lemma add_process_set_run (ranks : list Z) w :
  let c := horovod_add_process_set (map c_int ranks)
             (c_int (Z.of_nat (length ranks))) in
  let r := reply w c in
  let res := fst (HorovodBasics.add_process_set ranks w) in
  (res = Raises NotInitialized <-> r = -1) /\
  (res = Raises DynamicModeDisabled <-> r = -2) /\
  (res = Raises UnsupportedController <-> r = -10) /\
  (res = Returns r <-> r <> -1 /\ r <> -2 /\ r <> -10) /\
  trace (snd (HorovodBasics.add_process_set ranks w)) =
    trace w ++ [Foreign c (answer w c)].
Proof.
  intros c r res. unfold res, HorovodBasics.add_process_set.
  rewrite (bind_run _ _ _ _ _ (foreign_int_run w c)). fold r.
  destruct (Z.eqb_spec r (-1)); [cbn; sentinel_cases |].
  destruct (Z.eqb_spec r (-2)); [cbn; sentinel_cases |].
  destruct (Z.eqb_spec r (-10)); cbn; sentinel_cases.
Qed.

End Scoped.

Lemma c_int_id (v : Z) : c_int_range v -> c_int v = v.
Proof.
  unfold c_int_range, c_int. intros H.
  rewrite Z.mod_small by lia. lia.
Qed.

Lemma map_c_int_id (l : list Z) : Forall c_int_range l -> map c_int l = l.
Proof.
  induction 1 as [| v l Hv _ IH]; [reflexivity |].
  cbn. rewrite (c_int_id v Hv), IH. reflexivity.
Qed.

(** C4: for every integer id, [process_set_rank] and [process_set_size]
    make one engine call, raise NotInitialized exactly when the engine
    answers -1, NotAMember exactly when it answers -2, UnknownProcessSet
    exactly when it answers -3, UnsupportedController exactly when it
    answers -10, and return the engine's value unchanged exactly in the
    remaining cases. *)
Theorem scoped_queries_translate_sentinels (E : Engine) (w : World E) (id : Z) :
  Forall (fun qc : (Z -> M E Z) * (Z -> call) =>
            let c := snd qc (c_int id) in
            let res := fst (fst qc id w) in
            (res = Raises NotInitialized <-> reply w c = -1) /\
            (res = Raises (NotAMember id) <-> reply w c = -2) /\
            (res = Raises (UnknownProcessSet id) <-> reply w c = -3) /\
            (res = Raises UnsupportedController <-> reply w c = -10) /\
            (res = Returns (reply w c) <->
               reply w c <> -1 /\ reply w c <> -2 /\
               reply w c <> -3 /\ reply w c <> -10) /\
            trace (snd (fst qc id w)) = trace w ++ [Foreign c (answer w c)])
    [ (HorovodBasics.process_set_rank, horovod_process_set_rank);
      (HorovodBasics.process_set_size, horovod_process_set_size) ].
Proof.
  repeat apply List.Forall_cons; try apply List.Forall_nil; cbn [fst snd].
  - exact (scoped_sentinel (horovod_process_set_rank (c_int id)) id w).
  - exact (scoped_sentinel (horovod_process_set_size (c_int id)) id w).
Qed.

(** C2: [add_process_set] sends the rank list to the engine exactly as
    given, position by position and with its duplicates (the ranks being C
    ints), in one engine call; it raises NotInitialized exactly when the
    engine answers -1, DynamicModeDisabled exactly when it answers -2,
    UnsupportedController exactly when it answers -10, and otherwise
    returns the engine's result as the new process-set id. *)
Theorem add_process_set_sends_ranks_as_given
    (E : Engine) (w : World E) (ranks : list Z) :
  Forall c_int_range ranks ->
  c_int_range (Z.of_nat (length ranks)) ->
  let c := horovod_add_process_set ranks (Z.of_nat (length ranks)) in
  let res := fst (HorovodBasics.add_process_set ranks w) in
  trace (snd (HorovodBasics.add_process_set ranks w)) =
    trace w ++ [Foreign c (answer w c)] /\
  (res = Raises NotInitialized <-> reply w c = -1) /\
  (res = Raises DynamicModeDisabled <-> reply w c = -2) /\
  (res = Raises UnsupportedController <-> reply w c = -10) /\
  (res = Returns (reply w c) <->
     reply w c <> -1 /\ reply w c <> -2 /\ reply w c <> -10).
Proof.
  intros Hranks Hlen c res.
  pose proof (add_process_set_run ranks w) as H. cbv zeta in H.
  rewrite (map_c_int_id ranks Hranks), (c_int_id _ Hlen) in H.
  fold c res in H. tauto.
Qed.

(** C10: whatever the engine answers to [horovod_add_process_set] outside
    -1, -2 and -10 (other negative values such as -3 included) is returned
    by [add_process_set] unchanged, with no exception raised. *)
Theorem add_process_set_passes_other_values
    (E : Engine) (w : World E) (ranks : list Z) :
  let r := reply w (horovod_add_process_set (map c_int ranks)
                      (c_int (Z.of_nat (length ranks)))) in
  r <> -1 -> r <> -2 -> r <> -10 ->
  fst (HorovodBasics.add_process_set ranks w) = Returns r.
Proof.
  intros r H1 H2 H10.
  apply (add_process_set_run ranks w). auto.
Qed.

(** C3: [remove_process_set 0] raises GlobalSetImmutable in every state of
    the process and of the engine; the world is left exactly as it was, so
    no engine call is made and the registry held by the engine is
    unchanged. *)
Theorem remove_global_process_set_refused (E : Engine) (w : World E) :
  HorovodBasics.remove_process_set 0 w = (Raises GlobalSetImmutable, w) /\
  new_events w (snd (HorovodBasics.remove_process_set 0 w)) = [] /\
  engine (snd (HorovodBasics.remove_process_set 0 w)) = engine w.
Proof.
  unfold HorovodBasics.remove_process_set. cbn.
  repeat split. unfold new_events. apply drop_all.
Qed.

(** ** Initialisation *)

Section Init.
Context {E : Engine}.
Implicit Types (w : World E).

Lemma forallb_is_int_PyInt (l : list Z) : forallb is_int (map PyInt l) = true.
Proof. induction l as [| v l IH]; [reflexivity | exact IH]. Qed.

Lemma c_int_array_from_ints (l : list Z) w :
  c_int_array_from (map PyInt l) w = (Returns (map c_int l), w).
Proof.
  unfold c_int_array_from. rewrite forallb_is_int_PyInt.
  unfold ret. rewrite map_map. reflexivity.
Qed.

Lemma c_int_array_from_sizes (l : list (list Z)) w :
  c_int_array_from (map (fun ps => PyInt (Z.of_nat (length ps))) l) w =
  (Returns (map (fun ps => c_int (Z.of_nat (length ps))) l), w).
Proof.
  rewrite <- (map_map (fun ps => Z.of_nat (length ps)) PyInt).
  rewrite c_int_array_from_ints, map_map. reflexivity.
Qed.

(** [init] on a documented [process_sets]: marshal, register, connect. *)
Lemma init_documented comm process_sets w :
  documented_process_sets process_sets = true ->
  HorovodBasics.init comm process_sets w =
  init_connect (comm_items comm)
    (map c_int (concat (declared_sets process_sets)))
    (map (fun ps => c_int (Z.of_nat (length ps))) (declared_sets process_sets))
    (c_int (Z.of_nat (length (declared_sets process_sets))))
    (armed (switched process_sets w)).
Proof.
  intros Hdoc. destruct process_sets as [| s | l]; cbn in Hdoc.
  - reflexivity.
  - unfold HorovodBasics.init. rewrite Hdoc. reflexivity.
  - unfold HorovodBasics.init.
    change (ret (PSList l)) with (ret (E:=E) (PSList l)).
    unfold bind at 1. cbn [ret HorovodBasics.process_set_ranks
      HorovodBasics.process_set_sizes].
    rewrite (bind_run _ _ _ _ _ (c_int_array_from_ints (concat l) w)).
    rewrite (bind_run _ _ _ _ _ (c_int_array_from_sizes l w)).
    rewrite length_map. reflexivity.
Qed.

Lemma rank_guard (comm : list pyobj) :
  (length comm =? 0)%nat || forallb is_int comm = forallb is_int comm.
Proof. destruct comm; reflexivity. Qed.

Lemma rank_comm_items comm :
  forallb is_int (comm_items comm) = rank_comm comm.
Proof.
  destruct comm as [[v | s | h | l] |]; cbn; try reflexivity.
Qed.

Lemma c_int_array_from_all_int (vals : list pyobj) w :
  forallb is_int vals = true ->
  c_int_array_from vals w =
  (Returns (map (fun o => c_int (int_value o)) vals), w).
Proof. intros H. unfold c_int_array_from. rewrite H. reflexivity. Qed.

(** With ranks (or nothing) for [comm], the handshake is one
    [horovod_init] call carrying the marshalled arrays. *)
Lemma init_connect_ranks (comm : list pyobj) ranks_arg sizes_arg count_arg w :
  forallb is_int comm = true ->
  init_connect comm ranks_arg sizes_arg count_arg w =
  (Returns tt,
   after w (horovod_init (map (fun o => c_int (int_value o)) comm)
              (c_int (Z.of_nat (length comm)))
              ranks_arg sizes_arg count_arg)).
Proof.
  intros Hint. unfold init_connect. rewrite rank_guard, Hint.
  rewrite (bind_run _ _ _ _ _ (c_int_array_from_all_int comm w Hint)).
  rewrite (bind_run _ _ _ _ _ (foreign_run w _)). reflexivity.
Qed.

Lemma mpi_built_run w :
  HorovodBasics.mpi_built w =
  (Returns (negb (reply w horovod_mpi_built =? 0)), after w horovod_mpi_built).
Proof.
  unfold HorovodBasics.mpi_built.
  rewrite (bind_run _ _ _ _ _ (foreign_int_run w _)). reflexivity.
Qed.

(** Handles given to an engine built without MPI. *)
Lemma init_connect_no_mpi (comm : list pyobj) ranks_arg sizes_arg count_arg w :
  forallb is_int comm = false ->
  reply w horovod_mpi_built = 0 ->
  init_connect comm ranks_arg sizes_arg count_arg w =
  (Raises UnsupportedControllerNoMPI, after w horovod_mpi_built).
Proof.
  intros Hint Hbuilt. unfold init_connect. rewrite rank_guard, Hint.
  rewrite (bind_run _ _ _ _ _ (mpi_built_run w)), Hbuilt. reflexivity.
Qed.

(** Something other than ranks, and not communicators throughout. *)
Lemma init_connect_invalid (comm : list pyobj) ranks_arg sizes_arg count_arg w :
  forallb is_int comm = false ->
  forallb is_comm comm = false ->
  reply w horovod_mpi_built <> 0 ->
  mpi4py_installed w = true ->
  init_connect comm ranks_arg sizes_arg count_arg w =
  (Raises ConfigurationError, after w horovod_mpi_built).
Proof.
  intros Hint Hcomm Hbuilt Hmpi4py. unfold init_connect.
  rewrite rank_guard, Hint.
  rewrite (bind_run _ _ _ _ _ (mpi_built_run w)).
  apply Z.eqb_neq in Hbuilt. rewrite Hbuilt. cbn [negb].
  unfold bind at 1, import_mpi4py.
  rewrite mpi4py_after, Hmpi4py, Hcomm. reflexivity.
Qed.

Lemma mapM_addressof_world (l : list pyobj) w :
  snd (mapM (E:=E) MPI_addressof l w) = w.
Proof.
  revert w. induction l as [| o l IH]; intros w; [reflexivity |].
  cbn [mapM]. unfold bind at 1.
  destruct o as [v | s | h | l']; try reflexivity.
  cbn [MPI_addressof ret]. unfold bind at 1.
  specialize (IH w).
  destruct (mapM MPI_addressof l w) as [[hs | e] w0]; cbn in IH |- *;
    subst w0; reflexivity.
Qed.

Lemma only_calls_refl w : only_calls w w.
Proof.
  repeat split. exists []. rewrite app_nil_r. auto.
Qed.

Lemma only_calls_after w c : only_calls w (after w c).
Proof.
  unfold only_calls.
  rewrite atexit_after, environ_after, trace_after. eauto.
Qed.

Lemma only_calls_trans w1 w2 w3 :
  only_calls w1 w2 -> only_calls w2 w3 -> only_calls w1 w3.
Proof.
  intros (Ha & He & evs & Ht & Hf) (Ha' & He' & evs' & Ht' & Hf').
  repeat split; try congruence.
  exists (evs ++ evs'). rewrite Ht', Ht, <- app_assoc, forallb_app, Hf, Hf'.
  auto.
Qed.

(** The handshake only adds foreign calls to the trace, and leaves the
    exit hooks and the environment as they are. *)
Lemma init_connect_frame (comm : list pyobj) ranks_arg sizes_arg count_arg w :
  only_calls w (snd (init_connect comm ranks_arg sizes_arg count_arg w)).
Proof.
  destruct (forallb is_int comm) eqn:Hint.
  { rewrite (init_connect_ranks _ _ _ _ _ Hint). apply only_calls_after. }
  unfold init_connect. rewrite rank_guard, Hint.
  rewrite (bind_run _ _ _ _ _ (mpi_built_run w)).
  apply (only_calls_trans _ _ _ (only_calls_after w horovod_mpi_built)).
  generalize (after w horovod_mpi_built) as w1. intros w1.
  destruct (negb (reply w horovod_mpi_built =? 0)); cbn [negb];
    [| apply only_calls_refl].
  unfold bind at 1, import_mpi4py.
  destruct (mpi4py_installed w1); [| apply only_calls_refl].
  destruct (forallb is_comm comm); cbn [negb]; [| apply only_calls_refl].
  destruct (length comm =? 1)%nat; [apply only_calls_refl |].
  unfold bind at 1.
  pose proof (mapM_addressof_world comm w1) as Hw.
  destruct (mapM MPI_addressof comm w1) as [[hs | e] w2]; cbn in Hw; subst w2;
    [| apply only_calls_refl].
  rewrite (bind_run _ _ _ _ _ (foreign_run w1 _)). apply only_calls_after.
Qed.

End Init.

Section InitClaims.
Context {E : Engine}.
Implicit Types (w : World E).

Lemma switched_frame process_sets w :
  atexit (switched process_sets w) = atexit w /\
  engine (switched process_sets w) = engine w /\
  mpi4py_installed (switched process_sets w) = mpi4py_installed w /\
  exists evs, trace (switched process_sets w) = trace w ++ evs /\
              existsb is_foreign evs = false.
Proof.
  destruct process_sets; cbn; repeat split; eauto;
    exists []; rewrite app_nil_r; auto.
Qed.

Lemma armed_frame w :
  atexit (armed w) = atexit w ++ [Shutdown] /\
  environ (armed w) = environ w /\
  engine (armed w) = engine w /\
  mpi4py_installed (armed w) = mpi4py_installed w /\
  trace (armed w) = trace w ++ [AtexitRegister Shutdown].
Proof. repeat split. Qed.

Lemma shutdown_run w :
  HorovodBasics.shutdown w = (Returns tt, after w horovod_shutdown).
Proof.
  unfold HorovodBasics.shutdown.
  rewrite (bind_run _ _ _ _ _ (foreign_run w _)). reflexivity.
Qed.

End InitClaims.

(** C9: every call to [init] (with a documented [process_sets]) registers
    [shutdown] as an exit hook; the registration comes before any engine
    call, so it holds whether [init] then returns or raises; running the
    hook calls the engine's shutdown; and an explicit [shutdown] does not
    remove the hook. *)
Theorem init_registers_exit_hook
    (E : Engine) (w : World E) (comm : option pyobj)
    (process_sets : process_sets_arg) :
  documented_process_sets process_sets = true ->
  let w' := snd (HorovodBasics.init comm process_sets w) in
  atexit w' = atexit w ++ [Shutdown] /\
  (exists before calls,
     new_events w w' = before ++ AtexitRegister Shutdown :: calls /\
     existsb is_foreign before = false /\
     forallb is_foreign calls = true) /\
  (forall w0 : World E,
     new_events w0 (snd (HorovodBasics.run_callback Shutdown w0)) =
       [Foreign horovod_shutdown (answer w0 horovod_shutdown)]) /\
  (forall w0 : World E,
     atexit (snd (HorovodBasics.shutdown w0)) = atexit w0).
Proof.
  intros Hdoc w'. unfold w'. rewrite (init_documented _ _ _ Hdoc).
  destruct (init_connect_frame (comm_items comm)
    (map c_int (concat (declared_sets process_sets)))
    (map (fun ps => c_int (Z.of_nat (length ps))) (declared_sets process_sets))
    (c_int (Z.of_nat (length (declared_sets process_sets))))
    (armed (switched process_sets w))) as (Hat & _ & calls & Htr & Hcalls).
  destruct (armed_frame (switched process_sets w)) as (Hat' & _ & _ & _ & Htr').
  destruct (switched_frame process_sets w) as (Hat'' & _ & _ & before & Htr'' & Hbefore).
  split; [congruence |]. split; [| split].
  - exists before, calls. split; [| auto].
    apply new_events_app. rewrite Htr, Htr', Htr'', <- !app_assoc. reflexivity.
  - intros w0. cbn [HorovodBasics.run_callback]. rewrite shutdown_run.
    apply new_events_app, trace_after.
  - intros w0. rewrite shutdown_run. apply atexit_after.
Qed.

(** Outside the documented forms: a non-empty string other than
    "dynamic" is iterated character by character, and the ranks array
    cannot be built from characters.  [init] raises while marshalling,
    before the registration and before any engine call. *)
Lemma init_undocumented_string
    (E : Engine) (w : World E) (comm : option pyobj) (c : ascii) (s : string) :
  String.eqb (lower (String c s)) "dynamic" = false ->
  HorovodBasics.init comm (PSStr (String c s)) w =
  (Raises (TypeError "'str' object cannot be interpreted as an integer"), w).
Proof.
  intros Hne. unfold HorovodBasics.init. rewrite Hne. reflexivity.
Qed.

(** C7: [init] with [process_sets = "dynamic"] first sets
    [HOROVOD_DYNAMIC_PROCESS_SETS=1] in the process environment, before
    the exit hook and before any engine call; with ranks (or nothing) for
    [comm], the handshake is one [horovod_init] call, answered by the
    engine under the updated environment, that carries empty process-set
    arrays and a count of zero. *)
Theorem dynamic_mode_switch_precedes_handshake
    (E : Engine) (w : World E) (comm : option pyobj) :
  let key := "HOROVOD_DYNAMIC_PROCESS_SETS" in
  let w' := snd (HorovodBasics.init comm (PSStr "dynamic") w) in
  (exists calls,
     new_events w w' =
       SetEnv key "1" :: AtexitRegister Shutdown :: calls /\
     forallb is_foreign calls = true) /\
  environ w' !! key = Some "1" /\
  (rank_comm comm = true ->
   let c := horovod_init
              (map (fun o => c_int (int_value o)) (comm_items comm))
              (c_int (Z.of_nat (length (comm_items comm)))) [] [] 0 in
   fst (HorovodBasics.init comm (PSStr "dynamic") w) = Returns tt /\
   new_events w w' =
     [ SetEnv key "1"; AtexitRegister Shutdown;
       Foreign c (fst (respond E c (<[key := "1"]> (environ w)) (engine w))) ]).
Proof.
  intros key w'. unfold w'.
  rewrite (init_documented comm (PSStr "dynamic") w eq_refl).
  cbn [declared_sets concat map length]. change (c_int (Z.of_nat 0)) with 0.
  set (w1 := armed (switched (PSStr "dynamic") w)).
  assert (Htr1 : trace w1 = trace w ++ [SetEnv key "1"; AtexitRegister Shutdown]).
  { cbn. rewrite <- app_assoc. reflexivity. }
  assert (Henv1 : environ w1 = <[key := "1"]> (environ w)) by reflexivity.
  split; [| split].
  - destruct (init_connect_frame (comm_items comm) [] [] 0 w1)
      as (_ & _ & calls & Htr & Hcalls).
    exists calls. split; [| exact Hcalls].
    apply new_events_app. rewrite Htr, Htr1, <- app_assoc. reflexivity.
  - destruct (init_connect_frame (comm_items comm) [] [] 0 w1)
      as (_ & Henv & _).
    rewrite Henv, Henv1. apply lookup_insert_eq.
  - intros Hrank.
    rewrite <- rank_comm_items in Hrank.
    rewrite (init_connect_ranks _ [] [] 0 w1 Hrank).
    split; [reflexivity |]. cbn [snd].
    apply new_events_app. rewrite trace_after, Htr1, <- app_assoc.
    reflexivity.
Qed.

(** C1, as the code has it: the rank lists given as [process_sets] are
    flattened, in declaration order and every entry kept, into the ranks
    array and the parallel sizes array (each element a C int) that the
    single [horovod_init] call carries, together with the number of
    entries.  No entry is dropped on the Python side. *)
Theorem init_flattens_every_declared_set
    (E : Engine) (w : World E) (comm : option pyobj) (l : list (list Z)) :
  rank_comm comm = true ->
  let c := horovod_init
             (map (fun o => c_int (int_value o)) (comm_items comm))
             (c_int (Z.of_nat (length (comm_items comm))))
             (map c_int (concat l))
             (map (fun ps => c_int (Z.of_nat (length ps))) l)
             (c_int (Z.of_nat (length l))) in
  fst (HorovodBasics.init comm (PSList l) w) = Returns tt /\
  new_events w (snd (HorovodBasics.init comm (PSList l) w)) =
    [ AtexitRegister Shutdown; Foreign c (answer (armed w) c) ].
Proof.
  intros Hrank c.
  rewrite (init_documented comm (PSList l) w eq_refl).
  cbn [declared_sets switched].
  rewrite <- rank_comm_items in Hrank.
  rewrite (init_connect_ranks _ _ _ _ (armed w) Hrank). fold c.
  split; [reflexivity |]. cbn [snd].
  apply new_events_app. rewrite trace_after.
  destruct (armed_frame w) as (_ & _ & _ & _ & ->).
  rewrite <- app_assoc. reflexivity.
Qed.

(** C6, as the code has it: with a [comm] that is not made of integers
    only, [init] asks the engine whether it was built with MPI.  If not,
    it raises UnsupportedController, for handles and for mixed lists
    alike.  If so (and mpi4py can be imported), a list that is not made of
    communicators only raises ConfigurationError, whose message is fixed
    and names the expected shapes. *)
Theorem init_rejects_non_rank_comm
    (E : Engine) (w : World E) (comm : option pyobj)
    (process_sets : process_sets_arg) :
  documented_process_sets process_sets = true ->
  rank_comm comm = false ->
  let w1 := armed (switched process_sets w) in
  (reply w1 horovod_mpi_built = 0 ->
   fst (HorovodBasics.init comm process_sets w) =
     Raises UnsupportedControllerNoMPI) /\
  (reply w1 horovod_mpi_built <> 0 ->
   mpi4py_installed w = true ->
   forallb is_comm (comm_items comm) = false ->
   fst (HorovodBasics.init comm process_sets w) = Raises ConfigurationError).
Proof.
  intros Hdoc Hrank w1.
  rewrite (init_documented _ _ _ Hdoc). fold w1.
  rewrite <- rank_comm_items in Hrank.
  split.
  - intros Hbuilt. rewrite (init_connect_no_mpi _ _ _ _ w1 Hrank Hbuilt).
    reflexivity.
  - intros Hbuilt Hmpi4py Hcomm.
    rewrite (init_connect_invalid _ _ _ _ w1 Hrank Hcomm Hbuilt);
      [reflexivity |].
    unfold w1.
    destruct (armed_frame (switched process_sets w)) as (_ & _ & _ & -> & _).
    destruct (switched_frame process_sets w) as (_ & _ & -> & _).
    exact Hmpi4py.
Qed.

(** ** Reading the registry *)

Section Registry.
Context {E : Engine}.
Implicit Types (w : World E) (d : gmap Z (list Z)).

Lemma c_int_array_nonneg (n : Z) w :
  0 <= n -> c_int_array n w = (Returns (replicate (Z.to_nat n) 0), w).
Proof.
  intros Hn. unfold c_int_array.
  destruct (Z.ltb_spec n 0); [lia | reflexivity].
Qed.

Lemma membership_read_mono evs evs' id m :
  (forall ev, ev ∈ evs -> ev ∈ evs') ->
  membership_read evs id m -> membership_read evs' id m.
Proof.
  intros Hsub (r1 & r2 & H1 & H2 & Hm). exists r1, r2. auto.
Qed.

(** The loop, from any dictionary and any state: either some read was
    answered with a negative value and the loop raised, or none was and
    the dictionary gained the membership read for each id. *)
Lemma get_process_sets_loop_spec (ids : list Z) :
  forall d0 w0,
  exists evs,
    trace (snd (HorovodBasics.get_process_sets_loop ids d0 w0)) =
      trace w0 ++ evs /\
    ((existsb negative_report evs = true /\
      fst (HorovodBasics.get_process_sets_loop ids d0 w0) =
        Raises ConsistencyError) \/
     (existsb negative_report evs = false /\
      exists d,
        fst (HorovodBasics.get_process_sets_loop ids d0 w0) = Returns d /\
        (forall k, k ∈ ids ->
           exists m, d !! k = Some m /\ membership_read evs k m) /\
        (forall k, k ∉ ids -> d !! k = d0 !! k))).
Proof.
  induction ids as [| a ids IH]; intros d0 w0.
  - exists []. cbn. rewrite app_nil_r. split; [reflexivity |].
    right. split; [reflexivity |]. exists d0. split; [reflexivity |].
    split; [intros k Hk; inversion Hk | reflexivity].
  - cbn [HorovodBasics.get_process_sets_loop].
    set (c1 := horovod_get_process_set_size (c_int a)).
    set (c2 := horovod_get_process_set_ranks (c_int a)).
    rewrite (bind_run _ _ _ _ _ (foreign_int_run w0 c1)).
    set (w1 := after w0 c1).
    destruct (Z.ltb_spec (reply w0 c1) 0) as [Hneg1 | Hpos1].
    { exists [Foreign c1 (answer w0 c1)]. split; [apply trace_after |].
      left. split; [| reflexivity].
      cbn. apply Z.ltb_lt in Hneg1. unfold reply in Hneg1. rewrite Hneg1.
      reflexivity. }
    rewrite (bind_run _ _ _ _ _ (c_int_array_nonneg _ w1 Hpos1)).
    rewrite (bind_run _ _ _ _ _ (foreign_run w1 c2)).
    set (w2 := after w1 c2).
    assert (Htr2 : trace w2 =
              trace w0 ++ [Foreign c1 (answer w0 c1); Foreign c2 (answer w1 c2)]).
    { unfold w2, w1. rewrite !trace_after, <- app_assoc. reflexivity. }
    apply Z.ltb_ge in Hpos1.
    destruct (Z.ltb_spec (rval (answer w1 c2)) 0) as [Hneg2 | Hpos2].
    { exists [Foreign c1 (answer w0 c1); Foreign c2 (answer w1 c2)].
      split; [exact Htr2 |]. left. split; [| reflexivity].
      cbn. apply Z.ltb_lt in Hneg2. rewrite Hneg2.
      rewrite orb_true_r. reflexivity. }
    apply Z.ltb_ge in Hpos2.
    set (m := store (written (answer w1 c2))
                (replicate (Z.to_nat (reply w0 c1)) 0)).
    destruct (IH (<[a := m]> d0) w2) as (evs & Htr & Hcases).
    exists (Foreign c1 (answer w0 c1) :: Foreign c2 (answer w1 c2) :: evs).
    split.
    { rewrite Htr, Htr2, <- app_assoc. reflexivity. }
    assert (Hhead : forall b,
              existsb negative_report
                (Foreign c1 (answer w0 c1) :: Foreign c2 (answer w1 c2) :: evs) = b
              <-> existsb negative_report evs = b).
    { intros b. cbn. unfold reply in Hpos1. rewrite Hpos1, Hpos2. reflexivity. }
    destruct Hcases as [[Hbad Hres] | (Hgood & d & Hres & Hin & Hout)].
    { left. split; [apply Hhead; exact Hbad | exact Hres]. }
    right. split; [apply Hhead; exact Hgood |].
    exists d. split; [exact Hres |]. split.
    + intros k Hk.
      destruct (decide (k ∈ ids)) as [Hrest | Hrest].
      * destruct (Hin k Hrest) as (m' & Hm' & Hread).
        exists m'. split; [exact Hm' |].
        eapply membership_read_mono; [| exact Hread].
        intros ev Hev. do 2 apply list_elem_of_further. exact Hev.
      * apply elem_of_cons in Hk as [-> | Hk]; [| contradiction].
        exists m. split.
        -- rewrite (Hout a Hrest). apply lookup_insert_eq.
        -- exists (answer w0 c1), (answer w1 c2).
           split; [apply list_elem_of_here |].
           split; [apply list_elem_of_further, list_elem_of_here |].
           reflexivity.
    + intros k Hk. apply not_elem_of_cons in Hk as [Hne Hk].
      rewrite (Hout k Hk). apply lookup_insert_ne. congruence.
Qed.

End Registry.

(** C8: in the three-step read of [get_process_sets] (count, id list,
    then size and members per id), if the engine answers any size fetch
    or any ranks fetch with a negative value, the call raises
    ConsistencyError and no dictionary is returned; otherwise it returns
    the dictionary whose keys are the fetched ids, each mapped to the
    membership list read for it.  No other exception comes out of the
    loop. *)
Theorem get_process_sets_all_or_nothing (E : Engine) (w : World E) :
  0 <= fetched_count w ->
  let res := fst (HorovodBasics.get_process_sets w) in
  let evs := new_events w (snd (HorovodBasics.get_process_sets w)) in
  (existsb negative_report evs = true -> res = Raises ConsistencyError) /\
  (existsb negative_report evs = false ->
   exists d : gmap Z (list Z),
     res = Returns d /\
     dom d = list_to_set (fetched_ids w) /\
     forall id, id ∈ fetched_ids w ->
       exists m, d !! id = Some m /\ membership_read evs id m) /\
  (forall e, res = Raises e -> e = ConsistencyError).
Proof.
  intros Hnum res evs. unfold res, evs. clear res evs.
  unfold HorovodBasics.get_process_sets.
  set (c_num := horovod_get_number_of_process_sets).
  set (c_ids := horovod_get_process_set_ids).
  rewrite (bind_run _ _ _ _ _ (foreign_int_run w c_num)).
  set (w1 := after w c_num).
  rewrite (bind_run _ _ _ _ _ (c_int_array_nonneg _ w1 Hnum)).
  rewrite (bind_run _ _ _ _ _ (foreign_run w1 c_ids)).
  set (w2 := after w1 c_ids).
  change (store (written (answer w1 c_ids))
            (replicate (Z.to_nat (fetched_count w)) 0)) with (fetched_ids w).
  destruct (get_process_sets_loop_spec (fetched_ids w) ∅ w2)
    as (evs & Htr & Hcases).
  set (out := HorovodBasics.get_process_sets_loop (fetched_ids w) ∅ w2) in *.
  assert (Hevs : new_events w (snd out) =
            Foreign c_num (answer w c_num) :: Foreign c_ids (answer w1 c_ids) :: evs).
  { apply new_events_app. rewrite Htr. unfold w2, w1.
    rewrite !trace_after, <- !app_assoc. reflexivity. }
  rewrite Hevs.
  change (existsb negative_report
            (Foreign c_num (answer w c_num) :: Foreign c_ids (answer w1 c_ids) :: evs))
    with (existsb negative_report evs).
  destruct Hcases as [[Hbad Hres] | (Hgood & d & Hres & Hin & Hout)].
  - split; [intros _; exact Hres |]. split; [congruence |].
    intros e He. congruence.
  - split; [congruence |]. split; [| intros e He; congruence].
    intros _. exists d. split; [exact Hres |]. split.
    + apply set_eq. intros k. rewrite elem_of_dom, elem_of_list_to_set.
      split.
      * intros [m Hm]. destruct (decide (k ∈ fetched_ids w)) as [Hk | Hk];
          [exact Hk |].
        rewrite (Hout k Hk), lookup_empty in Hm. discriminate.
      * intros Hk. destruct (Hin k Hk) as (m & Hm & _). eauto.
    + intros id Hid. destruct (Hin id Hid) as (m & Hm & Hread).
      exists m. split; [exact Hm |].
      eapply membership_read_mono; [| exact Hread].
      intros ev Hev. do 2 apply list_elem_of_further. exact Hev.
Qed.

(** A negative count never reaches the engine's later steps: ctypes
    refuses the array length. *)
Lemma get_process_sets_negative_count (E : Engine) (w : World E) :
  fetched_count w < 0 ->
  fst (HorovodBasics.get_process_sets w) =
    Raises (ValueError ("Array length must be >= 0, not " +:+
                         pretty (fetched_count w))).
Proof.
  intros Hneg. unfold HorovodBasics.get_process_sets.
  rewrite (bind_run _ _ _ _ _ (foreign_int_run w _)).
  unfold bind, c_int_array. fold (fetched_count w).
  apply Z.ltb_lt in Hneg. rewrite Hneg. reflexivity.
Qed.

(** * Concrete runs *)

(** The static test of the repository declares the sets [[0]], [[1;2]],
    [[2;1;0]] and [[0]] in a three-worker job. *)
Example static_test_handshake :
  trace (snd (HorovodBasics.init None (PSList [[0]; [1; 2]; [2; 1; 0]; [0]])
                (boot (E:=scripted) []))) =
  [ AtexitRegister Shutdown;
    Foreign (horovod_init [] 0 [0; 1; 2; 2; 1; 0; 0] [1; 2; 3; 1] 4)
      (Response 0 []) ].
Proof. vm_compute. reflexivity. Qed.

(** C1, as stated, fails: the fourth entry [[0]] has the same members as
    the first; the specification's rule drops it from the arrays, and
    [init] hands all four entries to the engine. *)
Lemma init_keeps_duplicate_entries :
  spec_drop_duplicates [[0]; [1; 2]; [2; 1; 0]; [0]] =
    [[0]; [1; 2]; [2; 1; 0]] /\
  new_events (boot (E:=scripted) [])
    (snd (HorovodBasics.init None (PSList [[0]; [1; 2]; [2; 1; 0]; [0]])
            (boot (E:=scripted) []))) =
    [ AtexitRegister Shutdown;
      Foreign (horovod_init [] 0 [0; 1; 2; 2; 1; 0; 0] [1; 2; 3; 1] 4)
        (Response 0 []) ] /\
  horovod_init [] 0 [0; 1; 2; 2; 1; 0; 0] [1; 2; 3; 1] 4 <>
  horovod_init [] 0
    (concat (spec_drop_duplicates [[0]; [1; 2]; [2; 1; 0]; [0]]))
    (map (fun ps => Z.of_nat (length ps))
       (spec_drop_duplicates [[0]; [1; 2]; [2; 1; 0]; [0]]))
    (Z.of_nat (length (spec_drop_duplicates [[0]; [1; 2]; [2; 1; 0]; [0]]))).
Proof.
  split; [reflexivity |]. split; [vm_compute; reflexivity |].
  vm_compute. discriminate.
Qed.

Lemma init_flattens_every_declared_set_witness :
  rank_comm (Some (PyList [PyInt 0; PyInt 1; PyInt 2])) = true /\
  new_events (boot (E:=scripted) [])
    (snd (HorovodBasics.init (Some (PyList [PyInt 0; PyInt 1; PyInt 2]))
            (PSList [[0]; [1; 2]; [2; 1; 0]; [0]])
            (boot (E:=scripted) []))) =
    [ AtexitRegister Shutdown;
      Foreign (horovod_init [0; 1; 2] 3 [0; 1; 2; 2; 1; 0; 0] [1; 2; 3; 1] 4)
        (Response 0 []) ].
Proof.
  split; [reflexivity |].
  exact (proj2 (init_flattens_every_declared_set scripted (boot (E:=scripted) [])
                  (Some (PyList [PyInt 0; PyInt 1; PyInt 2]))
                  [[0]; [1; 2]; [2; 1; 0]; [0]] eq_refl)).
Defined.

Lemma add_process_set_sends_ranks_as_given_witness :
  Forall c_int_range [0; 0; 1] /\
  c_int_range (Z.of_nat (length [0; 0; 1])) /\
  trace (snd (HorovodBasics.add_process_set [0; 0; 1]
                (boot (E:=scripted) [Response 5 []]))) =
    [ Foreign (horovod_add_process_set [0; 0; 1] 3) (Response 5 []) ].
Proof.
  assert (H1 : Forall c_int_range [0; 0; 1])
    by (repeat constructor; unfold c_int_range; cbn; lia).
  assert (H2 : c_int_range (Z.of_nat (length [0; 0; 1])))
    by (unfold c_int_range; cbn; lia).
  split; [exact H1 |]. split; [exact H2 |].
  exact (proj1 (add_process_set_sends_ranks_as_given scripted
                  (boot (E:=scripted) [Response 5 []]) [0; 0; 1] H1 H2)).
Defined.

Lemma add_process_set_passes_other_values_witness :
  fst (HorovodBasics.add_process_set [0; 1]
         (boot (E:=scripted) [Response (-3) []])) = Returns (-3).
Proof.
  apply (add_process_set_passes_other_values scripted
           (boot (E:=scripted) [Response (-3) []]) [0; 1]); discriminate.
Defined.

(** C6, as stated, fails twice.  A list mixing an integer and a handle,
    given to an engine built without MPI, raises UnsupportedController and
    not ConfigurationError; and with MPI built, two mixed lists of
    different shapes raise the same ConfigurationError, whose message
    states the expected shapes and nothing of what was observed. *)
Lemma mixed_comm_errors :
  fst (HorovodBasics.init (Some (PyList [PyInt 0; PyComm 7])) PSNone
         (boot (E:=scripted) [Response 0 []])) =
    Raises UnsupportedControllerNoMPI /\
  UnsupportedControllerNoMPI <> ConfigurationError /\
  fst (HorovodBasics.init (Some (PyList [PyInt 0; PyComm 7])) PSNone
         (boot (E:=scripted) [Response 1 []])) =
    Raises (ValueError
      "Invalid type of argument comm. Expected list of rank integers, mpi4py.MPI.Comm object or list of mpi4py.MPI.Comm objects.") /\
  fst (HorovodBasics.init (Some (PyList [PyComm 7; PyStr "x"; PyInt 1])) PSNone
         (boot (E:=scripted) [Response 1 []])) =
    Raises (ValueError
      "Invalid type of argument comm. Expected list of rank integers, mpi4py.MPI.Comm object or list of mpi4py.MPI.Comm objects.").
Proof.
  split; [vm_compute; reflexivity |].
  split; [vm_compute; discriminate |].
  split; vm_compute; reflexivity.
Qed.

Lemma init_rejects_non_rank_comm_witness :
  documented_process_sets PSNone = true /\
  rank_comm (Some (PyComm 7)) = false /\
  fst (HorovodBasics.init (Some (PyComm 7)) PSNone
         (boot (E:=scripted) [Response 0 []])) =
    Raises UnsupportedControllerNoMPI /\
  fst (HorovodBasics.init (Some (PyList [PyInt 0; PyComm 7])) PSNone
         (boot (E:=scripted) [Response 1 []])) =
    Raises ConfigurationError.
Proof.
  split; [reflexivity |]. split; [reflexivity |]. split.
  - exact (proj1 (init_rejects_non_rank_comm scripted (boot (E:=scripted) [Response 0 []])
                    (Some (PyComm 7)) PSNone eq_refl eq_refl) eq_refl).
  - apply (proj2 (init_rejects_non_rank_comm scripted (boot (E:=scripted) [Response 1 []])
                    (Some (PyList [PyInt 0; PyComm 7])) PSNone eq_refl eq_refl));
      [discriminate | reflexivity | reflexivity].
Defined.

Lemma dynamic_mode_switch_precedes_handshake_witness :
  new_events (boot (E:=scripted) [])
    (snd (HorovodBasics.init None (PSStr "dynamic") (boot (E:=scripted) []))) =
  [ SetEnv "HOROVOD_DYNAMIC_PROCESS_SETS" "1"; AtexitRegister Shutdown;
    Foreign (horovod_init [] 0 [] [] 0) (Response 0 []) ].
Proof.
  exact (proj2 (proj2 (proj2 (dynamic_mode_switch_precedes_handshake scripted
                                (boot (E:=scripted) []) None)) eq_refl)).
Defined.

Lemma get_process_sets_all_or_nothing_witness :
  0 <= fetched_count (boot (E:=scripted)
         [ Response 2 []; Response 0 [0; 1]; Response 3 [];
           Response 0 [0; 1; 2]; Response (-1) [] ]) /\
  fst (HorovodBasics.get_process_sets (boot (E:=scripted)
         [ Response 2 []; Response 0 [0; 1]; Response 3 [];
           Response 0 [0; 1; 2]; Response (-1) [] ])) =
    Raises ConsistencyError /\
  0 <= fetched_count (boot (E:=scripted)
         [ Response 2 []; Response 0 [0; 1]; Response 3 [];
           Response 0 [0; 1; 2]; Response 1 []; Response 0 [0] ]) /\
  exists d : gmap Z (list Z),
    fst (HorovodBasics.get_process_sets (boot (E:=scripted)
           [ Response 2 []; Response 0 [0; 1]; Response 3 [];
             Response 0 [0; 1; 2]; Response 1 []; Response 0 [0] ])) =
      Returns d /\
    dom d = list_to_set [0; 1].
Proof.
  split; [discriminate |]. split.
  { apply (get_process_sets_all_or_nothing scripted); [discriminate |].
    vm_compute. reflexivity. }
  split; [discriminate |].
  destruct (proj1 (proj2 (get_process_sets_all_or_nothing scripted
              (boot (E:=scripted)
                 [ Response 2 []; Response 0 [0; 1]; Response 3 [];
                   Response 0 [0; 1; 2]; Response 1 []; Response 0 [0] ])
              ltac:(discriminate))) eq_refl) as (d & Hres & Hdom & _).
  exists d. split; [exact Hres | exact Hdom].
Defined.

Lemma init_registers_exit_hook_witness :
  documented_process_sets PSNone = true /\
  fst (HorovodBasics.init (Some (PyList [PyInt 0; PyComm 7])) PSNone
         (boot (E:=scripted) [Response 0 []])) =
    Raises UnsupportedControllerNoMPI /\
  atexit (snd (HorovodBasics.init (Some (PyList [PyInt 0; PyComm 7])) PSNone
                 (boot (E:=scripted) [Response 0 []]))) = [Shutdown].
Proof.
  split; [reflexivity |]. split; [vm_compute; reflexivity |].
  exact (proj1 (init_registers_exit_hook scripted (boot (E:=scripted) [Response 0 []])
                  (Some (PyList [PyInt 0; PyComm 7])) PSNone eq_refl)).
Defined.

(** The registry read of the static test, against an engine that has
    dropped the duplicates: ids 0, 1, 2 with their members. *)
Example static_test_registry :
  fst (HorovodBasics.get_process_sets (boot (E:=scripted)
         [ Response 3 []; Response 0 [0; 1; 2];
           Response 3 []; Response 0 [0; 1; 2];
           Response 1 []; Response 0 [0];
           Response 2 []; Response 0 [1; 2] ])) =
  Returns (<[2 := [1; 2]]> (<[1 := [0]]> (<[0 := [0; 1; 2]]> ∅))).
Proof. vm_compute. reflexivity. Qed.

(** * Further properties of the wrapper *)

Ltac unfold_taxonomy_rest :=
  unfold DynamicTimelineDisabled, MPINotEnabled, NotInitializedOrNoMPI,
    NoMatchingProcessSet, DynamicModeDisabledRemove,
    UnknownProcessSetRemove in *.

Ltac rest_cases :=
  repeat split; intros; subst;
  try reflexivity; try lia; try apply trace_after;
  unfold_taxonomy_rest; unfold_taxonomy; distinct_messages;
  try lia; try congruence.

(** ** Removing a process set *)

Lemma c_int_multiple (k : Z) : c_int (k * 2 ^ 32) = 0.
Proof.
  unfold c_int. rewrite Z.add_comm, Z_mod_plus_full. reflexivity.
Qed.

(** Past its guard, [remove_process_set] makes one engine call. *)
Lemma remove_process_set_trace (E : Engine) (w : World E) (id : Z) :
  id <> 0 ->
  trace (snd (HorovodBasics.remove_process_set id w)) =
    trace w ++ [Foreign (horovod_remove_process_set (c_int id))
                  (answer w (horovod_remove_process_set (c_int id)))].
Proof.
  intros Hid. unfold HorovodBasics.remove_process_set.
  apply Z.eqb_neq in Hid. rewrite Hid.
  rewrite (bind_run _ _ _ _ _ (foreign_int_run w _)).
  generalize (reply w (horovod_remove_process_set (c_int id))) as r.
  intros r.
  destruct (r =? -1); [apply trace_after |].
  destruct (r =? -2); [apply trace_after |].
  destruct (r =? -3); [apply trace_after |].
  destruct (r =? -10); apply trace_after.
Qed.

(** X1: for an id other than 0, [remove_process_set] makes one engine
    call with the id as a C int; it raises NotInitialized exactly when the
    engine answers -1, the dynamic-mode error exactly when it answers -2,
    the unknown-id error (which quotes the id) exactly when it answers -3,
    UnsupportedController exactly when it answers -10, and returns the
    engine's answer in every other case. *)
Theorem remove_process_set_translates_sentinels
    (E : Engine) (w : World E) (id : Z) :
  id <> 0 ->
  let c := horovod_remove_process_set (c_int id) in
  let res := fst (HorovodBasics.remove_process_set id w) in
  (res = Raises NotInitialized <-> reply w c = -1) /\
  (res = Raises DynamicModeDisabledRemove <-> reply w c = -2) /\
  (res = Raises (UnknownProcessSetRemove id) <-> reply w c = -3) /\
  (res = Raises UnsupportedController <-> reply w c = -10) /\
  (res = Returns (reply w c) <->
     reply w c <> -1 /\ reply w c <> -2 /\
     reply w c <> -3 /\ reply w c <> -10) /\
  trace (snd (HorovodBasics.remove_process_set id w)) =
    trace w ++ [Foreign c (answer w c)].
Proof.
  intros Hid c res. unfold res, HorovodBasics.remove_process_set.
  apply Z.eqb_neq in Hid. rewrite Hid.
  rewrite (bind_run _ _ _ _ _ (foreign_int_run w c)).
  generalize (reply w c) as r. intros r.
  destruct (Z.eqb_spec r (-1)); [cbn; rest_cases |].
  destruct (Z.eqb_spec r (-2)); [cbn; rest_cases |].
  destruct (Z.eqb_spec r (-3)); [cbn; rest_cases |].
  destruct (Z.eqb_spec r (-10)); cbn; rest_cases.
Qed.

Lemma remove_process_set_translates_sentinels_witness :
  3 <> 0 /\
  fst (HorovodBasics.remove_process_set 3
         (boot (E:=scripted) [Response (-3) []])) =
    Raises (ValueError "Tried to remove unknown process set id 3").
Proof.
  split; [discriminate |].
  apply (remove_process_set_translates_sentinels scripted
           (boot (E:=scripted) [Response (-3) []]) 3);
    [discriminate | reflexivity].
Defined.

(** X2: the id-0 guard of [remove_process_set] tests the Python int, and
    the engine receives the C int.  A non-zero multiple of 2^32 passes the
    guard and reaches the engine as id 0. *)
Theorem remove_process_set_guard_tests_python_int
    (E : Engine) (w : World E) (k : Z) :
  k <> 0 ->
  trace (snd (HorovodBasics.remove_process_set (k * 2 ^ 32) w)) =
    trace w ++ [Foreign (horovod_remove_process_set 0)
                  (answer w (horovod_remove_process_set 0))].
Proof.
  intros Hk.
  assert (Hid : k * 2 ^ 32 <> 0) by lia.
  rewrite (remove_process_set_trace E w _ Hid), c_int_multiple.
  reflexivity.
Qed.

Lemma remove_process_set_guard_tests_python_int_witness :
  1 <> 0 /\
  trace (snd (HorovodBasics.remove_process_set 4294967296
                (boot (E:=scripted) [Response 0 []]))) =
    [Foreign (horovod_remove_process_set 0) (Response 0 [])].
Proof.
  split; [discriminate |].
  exact (remove_process_set_guard_tests_python_int scripted
           (boot (E:=scripted) [Response 0 []]) 1 ltac:(discriminate)).
Defined.

(** ** Initialisation, further *)

Section InitFurther.
Context {E : Engine}.
Implicit Types (w : World E).

Lemma init_connect_arrays_unused (comm : list pyobj)
    ranks_arg sizes_arg count_arg ranks_arg' sizes_arg' count_arg' w :
  forallb is_int comm = false ->
  init_connect comm ranks_arg sizes_arg count_arg w =
  init_connect comm ranks_arg' sizes_arg' count_arg' w.
Proof.
  intros Hint. unfold init_connect. rewrite rank_guard, Hint. reflexivity.
Qed.

Lemma forallb_is_comm_PyComm (hs : list handle) :
  forallb is_comm (map PyComm hs) = true.
Proof. induction hs as [| h hs IH]; [reflexivity | exact IH]. Qed.

Lemma mapM_addressof_comms (hs : list handle) w :
  mapM MPI_addressof (map PyComm hs) w = (Returns hs, w).
Proof.
  induction hs as [| h hs IH]; [reflexivity |].
  cbn [map mapM MPI_addressof]. unfold bind at 1. cbn [ret].
  unfold bind at 1. rewrite IH. reflexivity.
Qed.

Lemma calls_of_app (evs evs' : list event) :
  calls_of (evs ++ evs') = calls_of evs ++ calls_of evs'.
Proof. unfold calls_of. apply omap_app. Qed.

(** The calls of a run of [init] are those of its handshake. *)
Lemma calls_of_init process_sets w w' evs :
  trace w' = trace (armed (switched process_sets w)) ++ evs ->
  calls_of (new_events w w') = calls_of evs.
Proof.
  intros Htr.
  destruct (armed_frame (switched process_sets w)) as (_ & _ & _ & _ & Harm).
  destruct (switched_frame process_sets w) as (_ & _ & _ & pre & Hsw & Hpre).
  rewrite Harm, Hsw, <- !app_assoc in Htr.
  rewrite (new_events_app _ _ _ Htr), !calls_of_app.
  assert (Hnone : calls_of pre = []).
  { clear - Hpre. induction pre as [| ev pre IH]; [reflexivity |].
    cbn in Hpre. apply orb_false_iff in Hpre as [Hev Hpre].
    destruct ev; try discriminate; cbn; auto. }
  rewrite Hnone. reflexivity.
Qed.

(** [init] with ranks (or nothing) for [comm] and rank lists for the
    process sets: registration, then the handshake. *)
Lemma init_ranks_run comm (l : list (list Z)) w :
  rank_comm comm = true ->
  HorovodBasics.init comm (PSList l) w =
  (Returns tt,
   after (armed w)
     (horovod_init (map (fun o => c_int (int_value o)) (comm_items comm))
        (c_int (Z.of_nat (length (comm_items comm))))
        (map c_int (concat l))
        (map (fun ps => c_int (Z.of_nat (length ps))) l)
        (c_int (Z.of_nat (length l))))).
Proof.
  intros Hrank. rewrite (init_documented comm (PSList l) w eq_refl).
  rewrite <- rank_comm_items in Hrank.
  apply (init_connect_ranks _ _ _ _ (armed w) Hrank).
Qed.

End InitFurther.

(** X3: when [comm] holds anything but ranks, the rank lists given as
    [process_sets] have no effect at all: [init] behaves as if
    [process_sets] were [None]. *)
Theorem init_ignores_process_sets_with_communicators
    (E : Engine) (w : World E) (comm : option pyobj) (l : list (list Z)) :
  rank_comm comm = false ->
  HorovodBasics.init comm (PSList l) w = HorovodBasics.init comm PSNone w.
Proof.
  intros Hrank. rewrite <- rank_comm_items in Hrank.
  rewrite (init_documented comm (PSList l) w eq_refl).
  rewrite (init_documented comm PSNone w eq_refl).
  apply init_connect_arrays_unused. exact Hrank.
Qed.

Lemma init_ignores_process_sets_with_communicators_witness :
  rank_comm (Some (PyList [PyComm 7; PyComm 8])) = false /\
  HorovodBasics.init (Some (PyList [PyComm 7; PyComm 8])) (PSList [[0]; [1]])
    (boot (E:=scripted) [Response 1 []]) =
  HorovodBasics.init (Some (PyList [PyComm 7; PyComm 8])) PSNone
    (boot (E:=scripted) [Response 1 []]).
Proof.
  split; [reflexivity |].
  exact (init_ignores_process_sets_with_communicators scripted
           (boot (E:=scripted) [Response 1 []])
           (Some (PyList [PyComm 7; PyComm 8])) [[0]; [1]] eq_refl).
Defined.

(** X4: with a list of two or more communicators, an engine built with
    MPI and mpi4py importable, [init] returns after exactly two engine
    calls: the MPI build probe, then one [horovod_init_multi_comm] carrying
    the handles in the order given and their number. *)
Theorem init_multi_comm_handshake
    (E : Engine) (w : World E) (hs : list handle)
    (process_sets : process_sets_arg) :
  (2 <= length hs)%nat ->
  documented_process_sets process_sets = true ->
  mpi4py_installed w = true ->
  reply (armed (switched process_sets w)) horovod_mpi_built <> 0 ->
  fst (HorovodBasics.init (Some (PyList (map PyComm hs))) process_sets w) =
    Returns tt /\
  calls_of (new_events w
    (snd (HorovodBasics.init (Some (PyList (map PyComm hs))) process_sets w))) =
    [ horovod_mpi_built;
      horovod_init_multi_comm hs (c_int (Z.of_nat (length hs))) ].
Proof.
  intros Hlen Hdoc Hmpi4py Hbuilt.
  rewrite (init_documented _ _ _ Hdoc). cbn [comm_items].
  set (w1 := armed (switched process_sets w)) in *.
  assert (Hmpi4py1 : mpi4py_installed w1 = true).
  { unfold w1.
    destruct (armed_frame (switched process_sets w)) as (_ & _ & _ & -> & _).
    destruct (switched_frame process_sets w) as (_ & _ & -> & _).
    exact Hmpi4py. }
  assert (Hint : forallb is_int (map PyComm hs) = false)
    by (destruct hs; [cbn in Hlen; lia | reflexivity]).
  assert (Hone : (length (map PyComm hs) =? 1)%nat = false)
    by (rewrite length_map; apply Nat.eqb_neq; lia).
  assert (Hrun :
    init_connect (map PyComm hs)
      (map c_int (concat (declared_sets process_sets)))
      (map (fun ps => c_int (Z.of_nat (length ps))) (declared_sets process_sets))
      (c_int (Z.of_nat (length (declared_sets process_sets)))) w1 =
    (Returns tt,
     after (after w1 horovod_mpi_built)
       (horovod_init_multi_comm hs (c_int (Z.of_nat (length hs)))))).
  { unfold init_connect. rewrite rank_guard, Hint.
    rewrite (bind_run _ _ _ _ _ (mpi_built_run w1)).
    apply Z.eqb_neq in Hbuilt. rewrite Hbuilt. cbn [negb].
    unfold bind at 1, import_mpi4py. rewrite mpi4py_after, Hmpi4py1.
    rewrite forallb_is_comm_PyComm, Hone. cbn [negb].
    rewrite (bind_run _ _ _ _ _ (mapM_addressof_comms hs _)).
    rewrite (bind_run _ _ _ _ _ (foreign_run _ _)).
    rewrite length_map. reflexivity. }
  rewrite Hrun. cbn [fst snd]. split; [reflexivity |].
  erewrite calls_of_init; cycle 1.
  { rewrite !trace_after, <- app_assoc. reflexivity. }
  reflexivity.
Qed.

Lemma init_multi_comm_handshake_witness :
  (2 <= length [7; 8])%nat /\
  calls_of (trace (snd (HorovodBasics.init (Some (PyList [PyComm 7; PyComm 8]))
                          (PSList [[0]; [1]])
                          (boot (E:=scripted) [Response 1 []])))) =
    [ horovod_mpi_built; horovod_init_multi_comm [7; 8] 2 ].
Proof.
  split; [cbn; lia |].
  exact (proj2 (init_multi_comm_handshake scripted
                  (boot (E:=scripted) [Response 1 []]) [7; 8]
                  (PSList [[0]; [1]]) ltac:(cbn; lia) eq_refl eq_refl
                  ltac:(discriminate))).
Defined.

(** X5: a single communicator never initialises the engine.  With MPI
    built and mpi4py importable, [init] takes the address of the list it
    has wrapped the communicator in, which mpi4py refuses: the call raises
    [TypeError] after the MPI build probe, and [horovod_init_comm] is not
    reached. *)
Theorem init_single_communicator_raises
    (E : Engine) (w : World E) (comm : option pyobj) (h : handle)
    (process_sets : process_sets_arg) :
  comm_items comm = [PyComm h] ->
  documented_process_sets process_sets = true ->
  mpi4py_installed w = true ->
  reply (armed (switched process_sets w)) horovod_mpi_built <> 0 ->
  fst (HorovodBasics.init comm process_sets w) =
    Raises (TypeError "expecting an MPI instance") /\
  calls_of (new_events w (snd (HorovodBasics.init comm process_sets w))) =
    [ horovod_mpi_built ].
Proof.
  intros Hcomm Hdoc Hmpi4py Hbuilt.
  rewrite (init_documented _ _ _ Hdoc), Hcomm.
  set (w1 := armed (switched process_sets w)) in *.
  assert (Hmpi4py1 : mpi4py_installed w1 = true).
  { unfold w1.
    destruct (armed_frame (switched process_sets w)) as (_ & _ & _ & -> & _).
    destruct (switched_frame process_sets w) as (_ & _ & -> & _).
    exact Hmpi4py. }
  assert (Hrun :
    init_connect [PyComm h]
      (map c_int (concat (declared_sets process_sets)))
      (map (fun ps => c_int (Z.of_nat (length ps))) (declared_sets process_sets))
      (c_int (Z.of_nat (length (declared_sets process_sets)))) w1 =
    (Raises (TypeError "expecting an MPI instance"),
     after w1 horovod_mpi_built)).
  { unfold init_connect.
    cbn [length Nat.eqb forallb is_int is_comm orb andb negb].
    rewrite (bind_run _ _ _ _ _ (mpi_built_run w1)).
    apply Z.eqb_neq in Hbuilt. rewrite Hbuilt. cbn [negb].
    unfold bind at 1, import_mpi4py. rewrite mpi4py_after, Hmpi4py1.
    reflexivity. }
  rewrite Hrun. cbn [fst snd]. split; [reflexivity |].
  erewrite calls_of_init; cycle 1.
  { rewrite trace_after. reflexivity. }
  reflexivity.
Qed.

Lemma init_single_communicator_raises_witness :
  comm_items (Some (PyComm 7)) = [PyComm 7] /\
  fst (HorovodBasics.init (Some (PyComm 7)) PSNone
         (boot (E:=scripted) [Response 1 []])) =
    Raises (TypeError "expecting an MPI instance").
Proof.
  split; [reflexivity |].
  exact (proj1 (init_single_communicator_raises scripted
                  (boot (E:=scripted) [Response 1 []]) (Some (PyComm 7)) 7
                  PSNone eq_refl eq_refl eq_refl ltac:(discriminate))).
Defined.

(** X6: the dynamic marker is matched without regard to letter case:
    any string whose lower-case form is "dynamic" makes [init] behave
    exactly as "dynamic" does. *)
Theorem init_dynamic_marker_ignores_case
    (E : Engine) (w : World E) (comm : option pyobj) (s : string) :
  String.eqb (lower s) "dynamic" = true ->
  HorovodBasics.init comm (PSStr s) w =
  HorovodBasics.init comm (PSStr "dynamic") w.
Proof.
  intros Hs. unfold HorovodBasics.init. rewrite Hs. reflexivity.
Qed.

Lemma init_dynamic_marker_ignores_case_witness :
  String.eqb (lower "DyNaMiC") "dynamic" = true /\
  HorovodBasics.init None (PSStr "DyNaMiC") (boot (E:=scripted) []) =
  HorovodBasics.init None (PSStr "dynamic") (boot (E:=scripted) []).
Proof.
  split; [reflexivity |].
  exact (init_dynamic_marker_ignores_case scripted (boot (E:=scripted) [])
           None "DyNaMiC" eq_refl).
Defined.

(** X7: a string for [process_sets] that is not the dynamic marker is
    iterated character by character.  The empty string therefore declares
    nothing and acts as [None]; any other string makes [init] raise
    [TypeError] while the ranks array is built, with nothing done: no
    environment update, no exit hook, no engine call. *)
Theorem init_other_strings
    (E : Engine) (w : World E) (comm : option pyobj) (s : string) :
  String.eqb (lower s) "dynamic" = false ->
  (s = "" ->
   HorovodBasics.init comm (PSStr s) w = HorovodBasics.init comm PSNone w) /\
  (s <> "" ->
   HorovodBasics.init comm (PSStr s) w =
   (Raises (TypeError "'str' object cannot be interpreted as an integer"), w)).
Proof.
  intros Hs. split.
  - intros ->. reflexivity.
  - intros Hne. destruct s as [| c s]; [congruence |].
    unfold HorovodBasics.init. rewrite Hs. reflexivity.
Qed.

Lemma init_other_strings_witness :
  String.eqb (lower "static") "dynamic" = false /\
  HorovodBasics.init None (PSStr "static") (boot (E:=scripted) []) =
  (Raises (TypeError "'str' object cannot be interpreted as an integer"),
   boot (E:=scripted) []).
Proof.
  split; [reflexivity |].
  apply (init_other_strings scripted (boot (E:=scripted) []) None "static");
    [reflexivity | discriminate].
Defined.

(** X8: [init] writes to the process environment only for the dynamic
    marker, and then only the one switch: for [None] and for rank lists
    the environment is left as it was, whatever [comm] is and whether
    [init] returns or raises. *)
Theorem init_environment
    (E : Engine) (w : World E) (comm : option pyobj)
    (process_sets : process_sets_arg) :
  documented_process_sets process_sets = true ->
  environ (snd (HorovodBasics.init comm process_sets w)) =
  match process_sets with
  | PSStr _ => <["HOROVOD_DYNAMIC_PROCESS_SETS" := "1"]> (environ w)
  | _ => environ w
  end.
Proof.
  intros Hdoc. rewrite (init_documented _ _ _ Hdoc).
  destruct (init_connect_frame (comm_items comm)
    (map c_int (concat (declared_sets process_sets)))
    (map (fun ps => c_int (Z.of_nat (length ps))) (declared_sets process_sets))
    (c_int (Z.of_nat (length (declared_sets process_sets))))
    (armed (switched process_sets w))) as (_ & -> & _).
  destruct process_sets; reflexivity.
Qed.

Lemma init_environment_witness :
  documented_process_sets (PSList [[0]; [1]]) = true /\
  environ (snd (HorovodBasics.init (Some (PyList [PyInt 0; PyComm 7]))
                  (PSList [[0]; [1]])
                  (boot (E:=scripted) [Response 0 []]))) = ∅.
Proof.
  split; [reflexivity |].
  exact (init_environment scripted (boot (E:=scripted) [Response 0 []])
           (Some (PyList [PyInt 0; PyComm 7])) (PSList [[0]; [1]]) eq_refl).
Defined.

(** X9: [init] does not look at the initialisation state.  Called a
    second time (ranks or nothing for [comm], rank lists for the process
    sets), it performs a second handshake and registers [shutdown] a
    second time. *)
Theorem init_twice_makes_two_handshakes
    (E : Engine) (w : World E) (comm comm' : option pyobj)
    (l l' : list (list Z)) :
  rank_comm comm = true ->
  rank_comm comm' = true ->
  let handshake (comm : option pyobj) (l : list (list Z)) :=
    horovod_init (map (fun o => c_int (int_value o)) (comm_items comm))
      (c_int (Z.of_nat (length (comm_items comm))))
      (map c_int (concat l))
      (map (fun ps => c_int (Z.of_nat (length ps))) l)
      (c_int (Z.of_nat (length l))) in
  let w1 := snd (HorovodBasics.init comm (PSList l) w) in
  let w2 := snd (HorovodBasics.init comm' (PSList l') w1) in
  fst (HorovodBasics.init comm' (PSList l') w1) = Returns tt /\
  atexit w2 = atexit w ++ [Shutdown; Shutdown] /\
  calls_of (new_events w w2) = [handshake comm l; handshake comm' l'].
Proof.
  intros Hrank Hrank' handshake w1 w2. unfold w2, w1.
  rewrite (init_ranks_run comm l w Hrank). cbn [snd].
  rewrite (init_ranks_run comm' l' _ Hrank'). cbn [fst snd].
  fold (handshake comm l) (handshake comm' l').
  split; [reflexivity |]. split.
  - rewrite !atexit_after. cbn [armed atexit_register snd atexit].
    rewrite atexit_after. cbn [armed atexit_register snd atexit].
    rewrite <- app_assoc. reflexivity.
  - erewrite new_events_app; cycle 1.
    { rewrite trace_after. cbn [armed atexit_register snd trace].
      rewrite trace_after. cbn [armed atexit_register snd trace].
      rewrite <- !app_assoc. reflexivity. }
    reflexivity.
Qed.

Lemma init_twice_makes_two_handshakes_witness :
  rank_comm None = true /\
  atexit (snd (HorovodBasics.init None (PSList [[0]])
                 (snd (HorovodBasics.init None (PSList [])
                         (boot (E:=scripted) []))))) =
    [Shutdown; Shutdown].
Proof.
  split; [reflexivity |].
  exact (proj1 (proj2 (init_twice_makes_two_handshakes scripted
                         (boot (E:=scripted) []) None None [] [[0]]
                         eq_refl eq_refl))).
Defined.

(** ** Reading the registry, further *)

Lemma length_store (data buf : list Z) : length (store data buf) = length buf.
Proof.
  unfold store. rewrite length_take, length_app, length_drop. lia.
Qed.

Lemma store_short (data buf : list Z) :
  (length data <= length buf)%nat ->
  store data buf = data ++ drop (length data) buf.
Proof.
  intros Hlen. unfold store. apply take_ge.
  rewrite length_app, length_drop. lia.
Qed.

Section RegistryFurther.
Context {E : Engine}.
Implicit Types (w : World E) (d : gmap Z (list Z)).

Lemma length_fetched_ids w :
  length (fetched_ids w) = Z.to_nat (fetched_count w).
Proof. unfold fetched_ids. rewrite length_store, length_replicate. reflexivity. Qed.

(** The run of [get_process_sets] up to its loop. *)
Lemma get_process_sets_run w :
  0 <= fetched_count w ->
  HorovodBasics.get_process_sets w =
  HorovodBasics.get_process_sets_loop (fetched_ids w) ∅
    (after (after w horovod_get_number_of_process_sets)
       horovod_get_process_set_ids).
Proof.
  intros Hnum. unfold HorovodBasics.get_process_sets.
  rewrite (bind_run _ _ _ _ _ (foreign_int_run w _)).
  rewrite (bind_run _ _ _ _ _ (c_int_array_nonneg _ _ Hnum)).
  rewrite (bind_run _ _ _ _ _ (foreign_run _ _)). reflexivity.
Qed.

(** The loop, by its trace: it makes foreign calls only; when it raises,
    the negative report is the last event and the only one; when it
    returns, it made two calls per id, and every entry it added has the
    length reported for its id. *)
Lemma get_process_sets_loop_trace (ids : list Z) :
  forall d0 w0,
  exists evs,
    trace (snd (HorovodBasics.get_process_sets_loop ids d0 w0)) =
      trace w0 ++ evs /\
    match fst (HorovodBasics.get_process_sets_loop ids d0 w0) with
    | Raises e =>
        exists before bad,
          evs = before ++ [bad] /\ negative_report bad = true /\
          existsb negative_report before = false
    | Returns d =>
        length evs = (2 * length ids)%nat /\
        forall k m, d !! k = Some m ->
          (exists r_size,
             Foreign (horovod_get_process_set_size (c_int k)) r_size ∈ evs /\
             length m = Z.to_nat (rval r_size)) \/
          d0 !! k = Some m
    end.
Proof.
  induction ids as [| a ids IH]; intros d0 w0.
  - exists []. cbn. rewrite app_nil_r. split; [reflexivity |]. auto.
  - cbn [HorovodBasics.get_process_sets_loop].
    set (c1 := horovod_get_process_set_size (c_int a)).
    set (c2 := horovod_get_process_set_ranks (c_int a)).
    rewrite (bind_run _ _ _ _ _ (foreign_int_run w0 c1)).
    set (w1 := after w0 c1).
    destruct (Z.ltb_spec (reply w0 c1) 0) as [Hneg1 | Hpos1].
    { exists [Foreign c1 (answer w0 c1)]. split; [apply trace_after |].
      cbn [raise fst].
      exists [], (Foreign c1 (answer w0 c1)). repeat split.
      cbn. apply Z.ltb_lt. exact Hneg1. }
    rewrite (bind_run _ _ _ _ _ (c_int_array_nonneg _ w1 Hpos1)).
    rewrite (bind_run _ _ _ _ _ (foreign_run w1 c2)).
    set (w2 := after w1 c2).
    assert (Htr2 : trace w2 =
              trace w0 ++ [Foreign c1 (answer w0 c1); Foreign c2 (answer w1 c2)]).
    { unfold w2, w1. rewrite !trace_after, <- app_assoc. reflexivity. }
    assert (Hok1 : negative_report (Foreign c1 (answer w0 c1)) = false)
      by (cbn; apply Z.ltb_ge; exact Hpos1).
    destruct (Z.ltb_spec (rval (answer w1 c2)) 0) as [Hneg2 | Hpos2].
    { exists [Foreign c1 (answer w0 c1); Foreign c2 (answer w1 c2)].
      split; [exact Htr2 |]. cbn [raise fst].
      exists [Foreign c1 (answer w0 c1)], (Foreign c2 (answer w1 c2)).
      repeat split.
      - cbn. apply Z.ltb_lt. exact Hneg2.
      - cbn [existsb]. rewrite Hok1. reflexivity. }
    assert (Hok2 : negative_report (Foreign c2 (answer w1 c2)) = false)
      by (cbn; apply Z.ltb_ge; exact Hpos2).
    set (m := store (written (answer w1 c2))
                (replicate (Z.to_nat (reply w0 c1)) 0)).
    destruct (IH (<[a := m]> d0) w2) as (evs & Htr & Hcases).
    exists (Foreign c1 (answer w0 c1) :: Foreign c2 (answer w1 c2) :: evs).
    split.
    { rewrite Htr, Htr2, <- app_assoc. reflexivity. }
    destruct (fst (HorovodBasics.get_process_sets_loop ids (<[a := m]> d0) w2))
      as [d | e].
    + destruct Hcases as [Hlen Hentries]. split.
      * cbn [length]. rewrite Hlen. lia.
      * intros k m' Hk. destruct (Hentries k m' Hk) as [(r & Hin & Hm) | Hold].
        -- left. exists r. split; [| exact Hm].
           do 2 apply list_elem_of_further. exact Hin.
        -- destruct (decide (a = k)) as [<- | Hne].
           ++ rewrite lookup_insert_eq in Hold. injection Hold as <-.
              left. exists (answer w0 c1).
              split; [apply list_elem_of_here |].
              unfold m. rewrite length_store, length_replicate. reflexivity.
           ++ rewrite lookup_insert_ne in Hold by exact Hne. right. exact Hold.
    + destruct Hcases as (before & bad & -> & Hbad & Hbefore).
      exists (Foreign c1 (answer w0 c1) :: Foreign c2 (answer w1 c2) :: before),
        bad.
      repeat split; [exact Hbad |].
      cbn [existsb]. rewrite Hok1, Hok2, Hbefore. reflexivity.
Qed.

(** The loop makes foreign calls and nothing else. *)
Lemma get_process_sets_loop_frame (ids : list Z) :
  forall d0 w0,
  only_calls w0 (snd (HorovodBasics.get_process_sets_loop ids d0 w0)).
Proof.
  induction ids as [| a ids IH]; intros d0 w0; [apply only_calls_refl |].
  cbn [HorovodBasics.get_process_sets_loop].
  rewrite (bind_run _ _ _ _ _ (foreign_int_run w0 _)).
  eapply only_calls_trans; [apply only_calls_after |].
  destruct (_ <? 0) eqn:Hneg1; [apply only_calls_refl |].
  apply Z.ltb_ge in Hneg1.
  rewrite (bind_run _ _ _ _ _ (c_int_array_nonneg _ _ Hneg1)).
  rewrite (bind_run _ _ _ _ _ (foreign_run _ _)).
  eapply only_calls_trans; [apply only_calls_after |].
  destruct (_ <? 0); [apply only_calls_refl | apply IH].
Qed.

End RegistryFurther.

(** X10: [get_process_sets] stops at the first negative answer: when it
    raises, the negative size or ranks answer is the last engine call made,
    and no earlier answer was negative. *)
Theorem get_process_sets_stops_at_first_negative
    (E : Engine) (w : World E) (e : exn) :
  0 <= fetched_count w ->
  fst (HorovodBasics.get_process_sets w) = Raises e ->
  exists before bad,
    new_events w (snd (HorovodBasics.get_process_sets w)) = before ++ [bad] /\
    negative_report bad = true /\
    existsb negative_report before = false.
Proof.
  intros Hnum Hres. rewrite (get_process_sets_run w Hnum) in *.
  set (c_num := horovod_get_number_of_process_sets) in *.
  set (c_ids := horovod_get_process_set_ids) in *.
  set (w2 := after (after w c_num) c_ids) in *.
  destruct (get_process_sets_loop_trace (fetched_ids w) ∅ w2)
    as (evs & Htr & Hcases).
  rewrite Hres in Hcases. destruct Hcases as (before & bad & -> & Hbad & Hbefore).
  exists (Foreign c_num (answer w c_num) ::
          Foreign c_ids (answer (after w c_num) c_ids) :: before), bad.
  split; [| split; [exact Hbad | exact Hbefore]].
  apply new_events_app. rewrite Htr. unfold w2.
  rewrite !trace_after, <- !app_assoc. reflexivity.
Qed.

Lemma get_process_sets_stops_at_first_negative_witness :
  exists before bad,
    trace (snd (HorovodBasics.get_process_sets (boot (E:=scripted)
             [ Response 2 []; Response 0 [0; 1]; Response (-1) [];
               Response 5 [] ]))) = before ++ [bad] /\
    negative_report bad = true /\
    existsb negative_report before = false.
Proof.
  exact (get_process_sets_stops_at_first_negative scripted
           (boot (E:=scripted)
              [ Response 2 []; Response 0 [0; 1]; Response (-1) [];
                Response 5 [] ])
           ConsistencyError ltac:(discriminate) eq_refl).
Defined.

(** X11: every membership list that [get_process_sets] returns has exactly
    the length the engine reported for its id, whatever number of ranks the
    engine then wrote. *)
Theorem get_process_sets_lists_have_reported_size
    (E : Engine) (w : World E) (d : gmap Z (list Z)) (id : Z) (m : list Z) :
  0 <= fetched_count w ->
  fst (HorovodBasics.get_process_sets w) = Returns d ->
  d !! id = Some m ->
  exists r_size,
    Foreign (horovod_get_process_set_size (c_int id)) r_size ∈
      new_events w (snd (HorovodBasics.get_process_sets w)) /\
    length m = Z.to_nat (rval r_size).
Proof.
  intros Hnum Hres Hm. rewrite (get_process_sets_run w Hnum) in *.
  set (c_num := horovod_get_number_of_process_sets) in *.
  set (c_ids := horovod_get_process_set_ids) in *.
  set (w2 := after (after w c_num) c_ids) in *.
  destruct (get_process_sets_loop_trace (fetched_ids w) ∅ w2)
    as (evs & Htr & Hcases).
  rewrite Hres in Hcases. destruct Hcases as [_ Hentries].
  destruct (Hentries id m Hm) as [(r & Hin & Hlen) | Hold];
    [| rewrite lookup_empty in Hold; discriminate].
  exists r. split; [| exact Hlen].
  erewrite new_events_app; cycle 1.
  { rewrite Htr. unfold w2. rewrite !trace_after, <- !app_assoc. reflexivity. }
  do 2 apply list_elem_of_further. exact Hin.
Qed.

Lemma get_process_sets_lists_have_reported_size_witness :
  exists r_size,
    Foreign (horovod_get_process_set_size 1) r_size ∈
      trace (snd (HorovodBasics.get_process_sets (boot (E:=scripted)
               [ Response 1 []; Response 0 [1]; Response 2 [];
                 Response 0 [4; 5; 6] ]))) /\
    length [4; 5] = Z.to_nat (rval r_size).
Proof.
  exact (get_process_sets_lists_have_reported_size scripted
           (boot (E:=scripted)
              [ Response 1 []; Response 0 [1]; Response 2 [];
                Response 0 [4; 5; 6] ])
           (<[1 := [4; 5]]> ∅) 1 [4; 5]
           ltac:(discriminate) ltac:(vm_compute; reflexivity) eq_refl).
Defined.

(** X12: a successful [get_process_sets] makes exactly two engine calls
    plus two per counted process set, and nothing else. *)
Theorem get_process_sets_call_count
    (E : Engine) (w : World E) (d : gmap Z (list Z)) :
  0 <= fetched_count w ->
  fst (HorovodBasics.get_process_sets w) = Returns d ->
  length (new_events w (snd (HorovodBasics.get_process_sets w))) =
    (2 + 2 * Z.to_nat (fetched_count w))%nat /\
  only_calls w (snd (HorovodBasics.get_process_sets w)).
Proof.
  intros Hnum Hres. rewrite (get_process_sets_run w Hnum) in *.
  set (c_num := horovod_get_number_of_process_sets) in *.
  set (c_ids := horovod_get_process_set_ids) in *.
  set (w2 := after (after w c_num) c_ids) in *.
  destruct (get_process_sets_loop_trace (fetched_ids w) ∅ w2)
    as (evs & Htr & Hcases).
  rewrite Hres in Hcases. destruct Hcases as [Hlen _].
  rewrite length_fetched_ids in Hlen.
  assert (Hnew : trace (snd (HorovodBasics.get_process_sets_loop
                               (fetched_ids w) ∅ w2)) =
                 trace w ++ Foreign c_num (answer w c_num) ::
                   Foreign c_ids (answer (after w c_num) c_ids) :: evs).
  { rewrite Htr. unfold w2. rewrite !trace_after, <- !app_assoc. reflexivity. }
  split.
  - rewrite (new_events_app _ _ _ Hnew). cbn [length]. rewrite Hlen. lia.
  - apply (only_calls_trans _ _ _ (only_calls_after w c_num)).
    apply (only_calls_trans _ _ _ (only_calls_after _ c_ids)).
    apply get_process_sets_loop_frame.
Qed.

Lemma get_process_sets_call_count_witness :
  length (trace (snd (HorovodBasics.get_process_sets (boot (E:=scripted)
            [ Response 1 []; Response 0 [1]; Response 2 [];
              Response 0 [4; 5; 6] ])))) = 4%nat.
Proof.
  exact (proj1 (get_process_sets_call_count scripted
                  (boot (E:=scripted)
                     [ Response 1 []; Response 0 [1]; Response 2 [];
                       Response 0 [4; 5; 6] ])
                  (<[1 := [4; 5]]> ∅)
                  ltac:(discriminate) ltac:(vm_compute; reflexivity))).
Defined.

(** X13: when the engine counts no process set, [get_process_sets]
    returns the empty dictionary after the count and the id fetch, without
    a size or ranks fetch. *)
Theorem get_process_sets_empty_registry (E : Engine) (w : World E) :
  fetched_count w = 0 ->
  HorovodBasics.get_process_sets w =
  (Returns ∅,
   after (after w horovod_get_number_of_process_sets)
     horovod_get_process_set_ids).
Proof.
  intros Hzero.
  rewrite (get_process_sets_run w) by lia.
  assert (Hids : fetched_ids w = []).
  { apply length_zero_iff_nil. rewrite length_fetched_ids, Hzero. reflexivity. }
  rewrite Hids. reflexivity.
Qed.

Lemma get_process_sets_empty_registry_witness :
  fst (HorovodBasics.get_process_sets
         (boot (E:=scripted) [Response 0 []; Response 0 [7; 8]])) =
  Returns ∅.
Proof.
  exact (f_equal fst (get_process_sets_empty_registry scripted
           (boot (E:=scripted) [Response 0 []; Response 0 [7; 8]]) eq_refl)).
Defined.

(** X14: when the engine writes fewer ids than it counted, nothing is
    raised: the ids array keeps its zeros, and [get_process_sets] reads
    process set 0 for each id that was not written. *)
Theorem get_process_sets_missing_ids_read_as_zero (E : Engine) (w : World E) :
  let w1 := after w horovod_get_number_of_process_sets in
  let data := written (answer w1 horovod_get_process_set_ids) in
  0 <= fetched_count w ->
  (length data <= Z.to_nat (fetched_count w))%nat ->
  HorovodBasics.get_process_sets w =
  HorovodBasics.get_process_sets_loop
    (data ++ replicate (Z.to_nat (fetched_count w) - length data) 0) ∅
    (after w1 horovod_get_process_set_ids).
Proof.
  intros w1 data Hnum Hshort.
  rewrite (get_process_sets_run w Hnum).
  unfold fetched_ids. fold w1. fold data.
  rewrite store_short by (rewrite length_replicate; exact Hshort).
  rewrite drop_replicate. reflexivity.
Qed.

Lemma get_process_sets_missing_ids_read_as_zero_witness :
  fst (HorovodBasics.get_process_sets (boot (E:=scripted)
         [ Response 2 []; Response 0 [1]; Response 1 []; Response 0 [3];
           Response 2 []; Response 0 [3; 4] ])) =
  Returns (<[0 := [3; 4]]> (<[1 := [3]]> ∅)).
Proof.
  rewrite (get_process_sets_missing_ids_read_as_zero scripted
             (boot (E:=scripted)
                [ Response 2 []; Response 0 [1]; Response 1 []; Response 0 [3];
                  Response 2 []; Response 0 [3; 4] ])
             ltac:(discriminate) ltac:(cbn; lia)).
  vm_compute. reflexivity.
Defined.

(** ** Probes, timeline and communicator lookup *)

Section Probes.
Context {X : FullEngine}.
Implicit Types (w : World (core X)).

Lemma foreign_probe_run w (c : probe) :
  foreign_probe c w = (Returns (probe_reply w c), after_probe w c).
Proof.
  unfold after_probe, probe_reply, foreign_probe.
  destruct (respond_probe X c (environ w) (engine w)) as [r s]; reflexivity.
Qed.


(** The shape shared by the boolean feature probes. *)
Lemma bool_probe_run (c : probe) w :
  (r <- foreign_probe c ;; ret (py_bool r)) w =
  (Returns (py_bool (probe_reply w c)), after_probe w c).
Proof. rewrite (bind_run _ _ _ _ _ (foreign_probe_run w c)). reflexivity. Qed.

End Probes.

(** X15: [start_timeline] passes the path and the cycle flag to the
    engine, raises NotInitialized exactly when the engine answers -1 and
    the dynamic-timeline error exactly when it answers -2, and returns
    [None] on every other answer.  [stop_timeline] raises NotInitialized
    exactly when the engine answers -1 and returns [None] otherwise, -2
    included. *)
Theorem timeline_calls_translate_sentinels
    (X : FullEngine) (w : World (core X))
    (file_path : string) (mark_cycles : bool) :
  let r := probe_reply w (horovod_start_timeline file_path mark_cycles) in
  let res := fst (HorovodBasicsRest.start_timeline file_path mark_cycles w) in
  let r' := probe_reply w horovod_stop_timeline in
  let res' := fst (HorovodBasicsRest.stop_timeline w) in
  (res = Raises NotInitialized <-> r = -1) /\
  (res = Raises DynamicTimelineDisabled <-> r = -2) /\
  (res = Returns tt <-> r <> -1 /\ r <> -2) /\
  (res' = Raises NotInitialized <-> r' = -1) /\
  (res' = Returns tt <-> r' <> -1).
Proof.
  intros r res r' res'. unfold res, res'.
  unfold HorovodBasicsRest.start_timeline, HorovodBasicsRest.stop_timeline.
  rewrite !(bind_run _ _ _ _ _ (foreign_probe_run w _)). fold r r'.
  clearbody r r'.
  destruct (Z.eqb_spec r (-1)), (Z.eqb_spec r' (-1));
    try destruct (Z.eqb_spec r (-2)); cbn; rest_cases.
Qed.

Lemma timeline_calls_translate_sentinels_witness :
  fst (HorovodBasicsRest.start_timeline "/tmp/timeline.json" true
         (boot (E:=core scripted_full) [Response (-2) []])) =
    Raises DynamicTimelineDisabled /\
  fst (HorovodBasicsRest.stop_timeline
         (boot (E:=core scripted_full) [Response (-2) []])) = Returns tt.
Proof.
  split.
  - apply (timeline_calls_translate_sentinels scripted_full
             (boot (E:=core scripted_full) [Response (-2) []])
             "/tmp/timeline.json" true). reflexivity.
  - apply (timeline_calls_translate_sentinels scripted_full
             (boot (E:=core scripted_full) [Response (-2) []])
             "/tmp/timeline.json" true). discriminate.
Defined.

(** X16: [mpi_threads_supported] first asks whether MPI is enabled.  It
    raises the MPI-not-enabled error exactly when [mpi_enabled] returns
    [False] in the same state, and then asks the engine nothing more; with
    MPI enabled it raises NotInitialized exactly when the thread probe
    answers -1, and otherwise returns that answer as a boolean. *)
Theorem mpi_threads_supported_checks_mpi_first
    (X : FullEngine) (w : World (core X)) :
  let w1 := after_probe w horovod_mpi_enabled in
  let t := probe_reply w1 horovod_mpi_threads_supported in
  let res := fst (HorovodBasicsRest.mpi_threads_supported w) in
  (res = Raises MPINotEnabled <->
     fst (HorovodBasicsRest.mpi_enabled w) = Returns false) /\
  (fst (HorovodBasicsRest.mpi_enabled w) = Returns false ->
   snd (HorovodBasicsRest.mpi_threads_supported w) = w1) /\
  (fst (HorovodBasicsRest.mpi_enabled w) = Returns true ->
   (res = Raises NotInitialized <-> t = -1) /\
   (res = Returns (py_bool t) <-> t <> -1)).
Proof.
  intros w1 t res. unfold res.
  unfold HorovodBasicsRest.mpi_threads_supported, HorovodBasicsRest.mpi_enabled.
  rewrite bool_probe_run.
  rewrite (bind_run _ _ _ _ _ (foreign_probe_run w _)). fold w1.
  cbn [fst].
  destruct (py_bool (probe_reply w horovod_mpi_enabled)); cbn [negb].
  - rewrite (bind_run _ _ _ _ _ (foreign_probe_run w1 _)). fold t.
    clearbody t.
    destruct (Z.eqb_spec t (-1)); cbn; rest_cases.
  - cbn. rest_cases.
Qed.

Lemma mpi_threads_supported_checks_mpi_first_witness :
  fst (HorovodBasicsRest.mpi_threads_supported
         (boot (E:=core scripted_full) [Response 0 []; Response 1 []])) =
    Raises MPINotEnabled /\
  fst (HorovodBasicsRest.mpi_threads_supported
         (boot (E:=core scripted_full) [Response 1 []; Response (-1) []])) =
    Raises NotInitialized.
Proof.
  split.
  - apply (mpi_threads_supported_checks_mpi_first scripted_full
             (boot (E:=core scripted_full) [Response 0 []; Response 1 []])).
    reflexivity.
  - apply (proj2 (proj2 (mpi_threads_supported_checks_mpi_first scripted_full
             (boot (E:=core scripted_full) [Response 1 []; Response (-1) []])))
             eq_refl).
    reflexivity.
Defined.

(** X17: [comm_process_set] on a communicator, with MPI built and mpi4py
    importable, asks the engine for the process set of that handle; it
    raises the not-initialised-or-no-MPI error exactly when the engine
    answers -1, the no-matching-set error exactly when it answers -2, and
    returns the engine's answer as the id in every other case. *)
Theorem comm_process_set_translates_sentinels
    (X : FullEngine) (w : World (core X)) (h : handle) :
  reply w horovod_mpi_built <> 0 ->
  mpi4py_installed w = true ->
  let r := probe_reply (after w horovod_mpi_built)
             (horovod_comm_process_set h) in
  let res := fst (HorovodBasicsRest.comm_process_set (PyComm h) w) in
  (res = Raises NotInitializedOrNoMPI <-> r = -1) /\
  (res = Raises NoMatchingProcessSet <-> r = -2) /\
  (res = Returns r <-> r <> -1 /\ r <> -2).
Proof.
  intros Hbuilt Hmpi4py r res.
  assert (Hrun :
    HorovodBasicsRest.comm_process_set (X:=X) (PyComm h) w =
    (if r =? -1 then raise NotInitializedOrNoMPI
     else if r =? -2 then raise NoMatchingProcessSet
     else ret r)
      (after_probe (after w horovod_mpi_built) (horovod_comm_process_set h))).
  { unfold HorovodBasicsRest.comm_process_set.
    rewrite (bind_run _ _ _ _ _ (mpi_built_run w)).
    apply Z.eqb_neq in Hbuilt. rewrite Hbuilt. cbn [negb].
    unfold bind at 1, import_mpi4py. rewrite mpi4py_after, Hmpi4py.
    cbn [MPI_addressof]. unfold bind at 1. cbn [ret].
    rewrite (bind_run _ _ _ _ _ (foreign_probe_run _ _)). reflexivity. }
  unfold res. rewrite Hrun. clearbody r. clear Hrun.
  destruct (Z.eqb_spec r (-1)); [cbn; rest_cases |].
  destruct (Z.eqb_spec r (-2)); cbn; rest_cases.
Qed.

Lemma comm_process_set_translates_sentinels_witness :
  reply (boot (E:=core scripted_full) [Response 1 []; Response 2 []])
    horovod_mpi_built <> 0 /\
  fst (HorovodBasicsRest.comm_process_set (X:=scripted_full) (PyComm 7)
         (boot (E:=core scripted_full) [Response 1 []; Response 2 []])) =
    Returns 2.
Proof.
  split; [discriminate |].
  apply (comm_process_set_translates_sentinels scripted_full
           (boot (E:=core scripted_full) [Response 1 []; Response 2 []]) 7
           ltac:(discriminate) eq_refl).
  split; discriminate.
Defined.



